(** * dispatchd: exchange routing and connection frame dispatch

  A shallow embedding of [server/exchange.go] and [server/connection.go].
  Go structs are records (one module per struct, so fields keep their Go
  names), Go maps are [gmap]s, slices are lists, and the effects of a
  method (goroutines started, bytes written, channel sends) are made
  explicit in the value it returns. *)

From Stdlib Require Import ZArith List String Ascii DecimalString Lia.
From Stdlib.Strings Require Import Byte.
From stdpp Require Import base decidable option list strings gmap.

Open Scope string_scope.
Open Scope Z_scope.

(** ** Shared primitive types *)

(** Go's [error]: [None] is [nil]. *)
Definition error : Type := option string.
Definition nil_error : error := None.

(** Go's [time.Time], as the instant in nanoseconds since the Unix epoch;
  [==] on two times is equality of instants. *)
Definition Time : Type := Z.
Definition Duration : Type := Z.

Definition time_Unix (sec nsec : Z) : Time := sec * 1000000000 + nsec.
Definition time_Second : Duration := 1000000000.
Definition time_Add (t : Time) (d : Duration) : Time := t + d.

(** What [%d] prints for a length and for an unsigned integer. *)
Definition decimal_nat (n : nat) : string := NilZero.string_of_uint (Nat.to_uint n).
Definition decimal_Z (z : Z) : string := NilZero.string_of_uint (N.to_uint (Z.to_N z)).

(** A call either returns or panics with a message. *)
Inductive result (A : Type) : Type :=
| Ok (a : A)
| Panic (msg : string).
Arguments Ok {A} a.
Arguments Panic {A} msg.

(** How often [x] occurs in [l]. *)
Definition occurrences {A : Type} `{EqDecision A} (x : A) (l : list A) : nat :=
  length (List.filter (λ y, bool_decide (y = x)) l).

(** ** Package amqp: the parts the server code reads

  The table type [amqp.Table] is kept abstract: the server code only
  stores tables and compares them. *)

Module QueueBind.
Record t {Table : Type} :=
  mk { Queue : string; Exchange : string; RoutingKey : string; Arguments : Table }.
Arguments t : clear implicits.
End QueueBind.

Module BasicPublish.
Record t := mk {
  Exchange : string;
  RoutingKey : string
}.
End BasicPublish.

Module BasicReturn.
Record t := mk {
  Exchange : string;
  RoutingKey : string;
  ReplyCode : Z;
  ReplyText : string
}.
End BasicReturn.

Module Message.
Record t := mk { Method : BasicPublish.t }.
End Message.

Module WireFrame.
Record t := mk {
  FrameType : Z;          (* uint8 *)
  Channel : Z;            (* uint16 *)
  Payload : list byte
}.
End WireFrame.

(** ** Bindings *)

(** Modelled from the spec: the [Binding] struct ([binding.go] is not among
  the sources).  "Binding: queue name, exchange name, routing key pattern,
  argument table.  Immutable once constructed."  The field [queueName] is
  the one [exchange.go] reads. *)
Module Binding.
Record t {Table : Type} := mk {
  queueName : string;
  exchangeName : string;
  key : string;
  arguments : Table
}.
Arguments t : clear implicits.
End Binding.

#[export] Instance Binding_eq_dec {Table : Type} `{EqDecision Table} :
  EqDecision (Binding.t Table).
Proof. solve_decision. Defined.

(** ** Exchanges *)

Definition extype : Type := Z.   (* uint8 *)
Definition EX_TYPE_DIRECT : extype := 1.
Definition EX_TYPE_FANOUT : extype := 2.
Definition EX_TYPE_TOPIC : extype := 3.
Definition EX_TYPE_HEADERS : extype := 4.

(** The [Exchange] struct.  [bindingsLock] is left out (every method below
  is one atomic step, as it is under the lock); [incoming] and [msgStore]
  are never touched by this file's code; what is sent on [deleteChan] is
  returned by [autodeleteTimeout_wake]. *)
Module Exchange.
Record t {Table : Type} := mk {
  name : string;
  extype : extype;
  durable : bool;
  autodelete : bool;
  internal : bool;
  arguments : Table;
  system : bool;
  bindings : list (Binding.t Table);
  closed : bool;
  deleteActive : Time
}.
Arguments t : clear implicits.

Definition set_bindings {Table} (bs : list (Binding.t Table)) (e : t Table) : t Table :=
  mk Table (name e) (extype e) (durable e) (autodelete e) (internal e)
     (arguments e) (system e) bs (closed e) (deleteActive e).

Definition set_deleteActive {Table} (d : Time) (e : t Table) : t Table :=
  mk Table (name e) (extype e) (durable e) (autodelete e) (internal e)
     (arguments e) (system e) (bindings e) (closed e) d.

Definition set_autodelete {Table} (a : bool) (e : t Table) : t Table :=
  mk Table (name e) (extype e) (durable e) a (internal e)
     (arguments e) (system e) (bindings e) (closed e) (deleteActive e).

Definition set_closed {Table} (c : bool) (e : t Table) : t Table :=
  mk Table (name e) (extype e) (durable e) (autodelete e) (internal e)
     (arguments e) (system e) (bindings e) c (deleteActive e).
End Exchange.

(** Goroutines an exchange method starts with a [go] statement. *)
Inductive Goroutine : Type :=
| GoAutodeleteTimeout.

(** What a binding mutation leaves behind: the exchange after the call, the
  goroutines it started, and the returned [error]. *)
Module Outcome.
Record t {Table : Type} := mk {
  exchange : Exchange.t Table;
  started : list Goroutine;
  err : error
}.
Arguments t : clear implicits.
End Outcome.

Section ExchangeOps.
Context {Table : Type} `{EqDecision Table}.
Context {Queue : Type}.

Local Abbreviation Binding := (Binding.t Table).
Local Abbreviation Exchange := (Exchange.t Table).
Local Abbreviation Outcome := (Outcome.t Table).

(** Modelled from the spec: [amqp.EquivalentTables] (package [amqp] is not
    among the sources): the argument tables "match". *)
Definition EquivalentTables (t1 t2 : Table) : bool := bool_decide (t1 = t2).

(** Modelled from the spec: [NewBinding] ([binding.go] is not among the
    sources): builds the binding from queue, exchange, routing key and
    arguments. *)
Definition NewBinding (queueName exchangeName key : string) (arguments : Table) : Binding :=
  Binding.mk Table queueName exchangeName key arguments.

(** Modelled from the spec: [Binding.Equals]: "Equality is structural
    (queue+exchange+routing key+arguments)". *)
Definition Equals (binding other : Binding) : bool :=
  bool_decide (Binding.queueName binding = Binding.queueName other)
  && bool_decide (Binding.exchangeName binding = Binding.exchangeName other)
  && bool_decide (Binding.key binding = Binding.key other)
  && EquivalentTables (Binding.arguments binding) (Binding.arguments other).

(** Modelled from the spec: [Binding.matchDirect]: "true iff the publish's
    routing key equals the binding's routing key exactly (byte-for-byte)". *)
Definition matchDirect (b : Binding) (message : BasicPublish.t) : bool :=
  String.eqb (Binding.key b) (BasicPublish.RoutingKey message).

(** Modelled from the spec: [Binding.matchFanout]: "always true (every
    binding on a fanout exchange matches, key ignored)". *)
Definition matchFanout (b : Binding) (message : BasicPublish.t) : bool := true.

(** Modelled from the spec: the splitting inside [Binding.matchTopic]
    ([binding.go] is not among the sources): "routing key and pattern are
    each split into dot-delimited words", as [strings.Split(s, ".")] does;
    the empty string has one (empty) word. *)
Fixpoint splitWords (s : string) : list string :=
  match s with
  | EmptyString => [EmptyString]
  | String c rest =>
      if Ascii.eqb c "."%char then EmptyString :: splitWords rest
      else match splitWords rest with
           | w :: ws => String c w :: ws
           | [] => [String c EmptyString]
           end
  end.

(** Modelled from the spec: matching a list of pattern words against a
    list of key words: "pattern words [*] match exactly one word, [#]
    matches zero or more trailing/interior words; matching proceeds left
    to right with backtracking". *)
Fixpoint matchWords (pattern words : list string) : bool :=
  match pattern with
  | [] => match words with [] => true | _ :: _ => false end
  | p :: pattern' =>
      if String.eqb p "#" then
        (fix skip (ws : list string) : bool :=
           matchWords pattern' ws
           || match ws with
              | [] => false
              | _ :: ws' => skip ws'
              end) words
      else
        match words with
        | [] => false
        | w :: words' =>
            (String.eqb p "*" || String.eqb p w) && matchWords pattern' words'
        end
  end.

(** Modelled from the spec: a pattern against a routing key, both split
    into words. *)
Definition topicMatches (pattern routingKey : string) : bool :=
  matchWords (splitWords pattern) (splitWords routingKey).

(** Modelled from the spec: [Binding.matchTopic]: "routing key and pattern
    are each split into dot-delimited words". *)
Definition matchTopic (b : Binding) (message : BasicPublish.t) : bool :=
  topicMatches (Binding.key b) (BasicPublish.RoutingKey message).

(** Whether a word contains a dot. *)
Fixpoint hasDot (s : string) : bool :=
  match s with
  | EmptyString => false
  | String c rest => Ascii.eqb c "."%char || hasDot rest
  end.

Definition close (exchange : Exchange) : Exchange :=
  Exchange.set_closed true exchange.

Definition equivalentExchanges (ex1 ex2 : Exchange) : bool :=
  if negb (String.eqb (Exchange.name ex1) (Exchange.name ex2)) then false
  else if negb (Z.eqb (Exchange.extype ex1) (Exchange.extype ex2)) then false
  else if negb (Bool.eqb (Exchange.durable ex1) (Exchange.durable ex2)) then false
  else if negb (Bool.eqb (Exchange.internal ex1) (Exchange.internal ex2)) then false
  else if negb (EquivalentTables (Exchange.arguments ex1) (Exchange.arguments ex2)) then false
  else true.

Definition exchangeNameToType (et : string) : extype * error :=
  if String.eqb et "direct" then (EX_TYPE_DIRECT, nil_error)
  else if String.eqb et "fanout" then (EX_TYPE_FANOUT, nil_error)
  else if String.eqb et "topic" then (EX_TYPE_TOPIC, nil_error)
  else if String.eqb et "headers" then (EX_TYPE_HEADERS, nil_error)
  else (0, Some ("Unknown exchang type '" ++ et ++ "', "
                  ++ decimal_nat (String.length et) ++ " "
                  ++ decimal_nat (String.length "direct"))%string).

Definition exchangeTypeToName (et : extype) : result string :=
  if Z.eqb et EX_TYPE_DIRECT then Ok "direct"
  else if Z.eqb et EX_TYPE_FANOUT then Ok "fanout"
  else if Z.eqb et EX_TYPE_TOPIC then Ok "topic"
  else if Z.eqb et EX_TYPE_HEADERS then Ok "headers"
  else Panic ("bad exchange type: " ++ decimal_Z et)%string.

(** The loop the three implemented branches of [queuesForPublish] share:
    range over the bindings; a matching binding whose queue is already a
    key of [queues] is skipped ([continue]), otherwise its queue name is
    set to [true]. *)
Fixpoint rangeBindings (matches : Binding → bool) (bindings : list Binding)
    (queues : gmap string bool) : gmap string bool :=
  match bindings with
  | [] => queues
  | binding :: rest =>
      if matches binding then
        match queues !! Binding.queueName binding with
        | Some _ => rangeBindings matches rest queues
        | None =>
            rangeBindings matches rest (<[Binding.queueName binding := true]> queues)
        end
      else rangeBindings matches rest queues
  end.

Definition queuesForPublish (exchange : Exchange) (msg : Message.t)
    : result (gmap string bool) :=
  let queues : gmap string bool := ∅ in
  if Z.eqb (Exchange.extype exchange) EX_TYPE_DIRECT then
    Ok (rangeBindings (λ binding, matchDirect binding (Message.Method msg))
          (Exchange.bindings exchange) queues)
  else if Z.eqb (Exchange.extype exchange) EX_TYPE_FANOUT then
    Ok (rangeBindings (λ binding, matchFanout binding (Message.Method msg))
          (Exchange.bindings exchange) queues)
  else if Z.eqb (Exchange.extype exchange) EX_TYPE_TOPIC then
    Ok (rangeBindings (λ binding, matchTopic binding (Message.Method msg))
          (Exchange.bindings exchange) queues)
  else if Z.eqb (Exchange.extype exchange) EX_TYPE_HEADERS then
    Panic "Headers is not implemented!"
  else Panic "unknown exchange type!".

Definition returnMessage (exchange : Exchange) (msg : Message.t) (code : Z)
    (text : string) : BasicReturn.t :=
  BasicReturn.mk (Exchange.name exchange)
    (BasicPublish.RoutingKey (Message.Method msg)) code text.

(** How many stored bindings [binding.Equals]. *)
Definition countEqual (binding : Binding) (bindings : list Binding) : nat :=
  length (List.filter (λ b, Equals binding b) bindings).

(** The invariant: no two positions of the collection hold bindings that
  [Equals] relates. *)
Definition noEqualBindings (exchange : Exchange) : Prop :=
  ∀ (i j : nat) (b1 b2 : Binding),
    Exchange.bindings exchange !! i = Some b1
    → Exchange.bindings exchange !! j = Some b2
    → Equals b1 b2 = true
    → i = j.

Definition addBinding (exchange : Exchange) (method : QueueBind.t Table)
    (connId : Z) (fromDisk : bool) : Outcome :=
  let binding := NewBinding (QueueBind.Queue method) (QueueBind.Exchange method)
                   (QueueBind.RoutingKey method) (QueueBind.Arguments method) in
  if existsb (λ b, Equals binding b) (Exchange.bindings exchange) then
    Outcome.mk Table exchange [] nil_error
  else
    let exchange :=
      if Exchange.autodelete exchange
      then Exchange.set_deleteActive (time_Unix 0 0) exchange
      else exchange in
    Outcome.mk Table
      (Exchange.set_bindings (Exchange.bindings exchange ++ [binding]) exchange)
      [] nil_error.

Definition bindingsForQueue (exchange : Exchange) (queueName : string) : list Binding :=
  List.filter (λ b, String.eqb (Binding.queueName b) queueName)
    (Exchange.bindings exchange).

Definition removeBindingsForQueue (exchange : Exchange) (queueName : string) : Outcome :=
  let remaining :=
    List.filter (λ b, negb (String.eqb (Binding.queueName b) queueName))
      (Exchange.bindings exchange) in
  Outcome.mk Table (Exchange.set_bindings remaining exchange) [] nil_error.

(** The index at which the loop of [removeBinding] first finds a binding
    that [binding.Equals], counting from [i]. *)
Fixpoint firstEqual (binding : Binding) (bindings : list Binding) (i : nat) : option nat :=
  match bindings with
  | [] => None
  | b :: rest => if Equals binding b then Some i else firstEqual binding rest (S i)
  end.

Definition removeBinding (exchange : Exchange) (queue : Queue) (binding : Binding)
    : Outcome :=
  match firstEqual binding (Exchange.bindings exchange) 0 with
  | Some i =>
      let exchange :=
        Exchange.set_bindings
          (take i (Exchange.bindings exchange) ++ drop (S i) (Exchange.bindings exchange))
          exchange in
      if Exchange.autodelete exchange
         && Nat.eqb (length (Exchange.bindings exchange)) 0
      then Outcome.mk Table exchange [GoAutodeleteTimeout] nil_error
      else Outcome.mk Table exchange [] nil_error
  | None => Outcome.mk Table exchange [] nil_error
  end.

(** [autodeleteTimeout] runs in its own goroutine and sleeps in the middle,
    so it is two steps: up to [time.Sleep], with [now] the value read from
    [time.Now()], and from the wake-up on, where the same [now] is compared
    with the marker.  The second step returns what is sent on
    [exchange.deleteChan]. *)
Definition autodeleteWindow : Duration := 5 * time_Second.

Definition autodeleteTimeout_begin (exchange : Exchange) (now : Time) : Exchange :=
  Exchange.set_deleteActive now exchange.

Definition autodeleteTimeout_wake (exchange : Exchange) (now : Time) : list Exchange :=
  if Z.eqb (Exchange.deleteActive exchange) now then [exchange] else [].

(** *** One exchange, its timeout goroutines and a clock

    The binding methods run under the exchange's lock and the two halves of
    [autodeleteTimeout] touch only the marker, so a run of the exchange is a
    sequence of these events. *)
Inductive Event : Type :=
| EvAddBinding (method : QueueBind.t Table) (connId : Z) (fromDisk : bool)
| EvRemoveBinding (queue : Queue) (binding : Binding)
| EvRemoveBindingsForQueue (queueName : string)
| EvTimeoutBegin
| EvTimeoutWake (now : Time)
| EvTick (d : Duration).

Record World : Type := mkWorld {
  w_exchange : Exchange;
  w_clock : Time;                 (* what [time.Now()] returns *)
  w_started : list Goroutine;     (* started by [go], not yet run *)
  w_sleeping : list (Time * Time);(* in [time.Sleep]: local [now], wake-up time *)
  w_deleteChan : list Exchange    (* sent on [deleteChan], oldest first *)
}.

Definition after (o : Outcome) (w : World) : World :=
  mkWorld (Outcome.exchange o) (w_clock w) (w_started w ++ Outcome.started o)
    (w_sleeping w) (w_deleteChan w).

(** Removes the first sleeper whose local [now] is [now] and whose wake-up
    time has come. *)
Fixpoint wakeSleeper (now clock : Time) (sleeping : list (Time * Time))
    : option (list (Time * Time)) :=
  match sleeping with
  | [] => None
  | (n, until) :: rest =>
      if Z.eqb n now && Z.leb until clock then Some rest
      else option_map (cons (n, until)) (wakeSleeper now clock rest)
  end.

(** One event; [None] when the event cannot happen in this world (no
    goroutine to run, nobody to wake, time running backwards). *)
Definition step (w : World) (ev : Event) : option World :=
  match ev with
  | EvAddBinding method connId fromDisk =>
      Some (after (addBinding (w_exchange w) method connId fromDisk) w)
  | EvRemoveBinding queue binding =>
      Some (after (removeBinding (w_exchange w) queue binding) w)
  | EvRemoveBindingsForQueue queueName =>
      Some (after (removeBindingsForQueue (w_exchange w) queueName) w)
  | EvTimeoutBegin =>
      match w_started w with
      | GoAutodeleteTimeout :: rest =>
          let now := w_clock w in
          Some (mkWorld (autodeleteTimeout_begin (w_exchange w) now) (w_clock w) rest
                  (w_sleeping w ++ [(now, time_Add now autodeleteWindow)])
                  (w_deleteChan w))
      | [] => None
      end
  | EvTimeoutWake now =>
      match wakeSleeper now (w_clock w) (w_sleeping w) with
      | Some rest =>
          Some (mkWorld (w_exchange w) (w_clock w) (w_started w) rest
                  (w_deleteChan w ++ autodeleteTimeout_wake (w_exchange w) now))
      | None => None
      end
  | EvTick d =>
      if Z.leb 0 d
      then Some (mkWorld (w_exchange w) (time_Add (w_clock w) d) (w_started w)
                   (w_sleeping w) (w_deleteChan w))
      else None
  end.

Fixpoint run (w : World) (evs : list Event) : option World :=
  match evs with
  | [] => Some w
  | ev :: rest =>
      match step w ev with
      | Some w' => run w' rest
      | None => None
      end
  end.

End ExchangeOps.

(** ** Connections *)

Module ConnectStatus.
Record t := mk {
  start : bool;
  startOk : bool;
  secure : bool;
  secureOk : bool;
  tune : bool;
  tuneOk : bool;
  open : bool;
  openOk : bool;
  closing : bool;
  closed : bool
}.
Definition zero : t := mk false false false false false false false false false false.
End ConnectStatus.

(** Modelled from the spec: the [Channel] struct ([channel.go] is not among
  the sources): "channel id unique within its connection, ... inbound frame
  queue".  [started] records that [start()] was called; [incoming] holds the
  frames sent on the channel's queue, oldest first. *)
Module Channel.
Record t := mk {
  id : Z;                       (* uint16 *)
  started : bool;
  incoming : list WireFrame.t
}.
End Channel.

(** Modelled from the spec: [NewChannel] and [Channel.start] ([channel.go]
  is not among the sources): a new channel has an empty inbound queue;
  [start] "begin[s] its method handling". *)
Definition NewChannel (id : Z) : Channel.t := Channel.mk id false [].

Definition Channel_start (channel : Channel.t) : Channel.t :=
  Channel.mk (Channel.id channel) true (Channel.incoming channel).

(** [channel.incoming <- frame] *)
Definition Channel_send (frame : WireFrame.t) (channel : Channel.t) : Channel.t :=
  Channel.mk (Channel.id channel) (Channel.started channel)
    (Channel.incoming channel ++ [frame]).

(** Goroutines a connection method starts. *)
Inductive ConnGoroutine : Type :=
| GoHandleOutgoing.

(** The [AMQPConnection] struct.  [network] is the three fields [net_*]:
  the bytes each [Write] sent, whether [Close] was called.  [stdout] holds
  the lines printed with [fmt.Println]; [goroutines] the goroutines started.
  [ctx], [server], [lock], [outgoing], [nextChannel], [clientProperties] and
  the histograms are not read or written by the methods below (recording a
  histogram does not change the connection). *)
Module AMQPConnection.
Record t := mk {
  id : Z;
  channels : gmap Z Channel.t;
  connectStatus : ConnectStatus.t;
  net_written : list (list byte);
  net_closed : bool;
  ttl : Time;
  sendHeartbeatInterval : Duration;
  receiveHeartbeatInterval : Duration;
  maxChannels : Z;
  maxFrameSize : Z;
  stdout : list string;
  goroutines : list ConnGoroutine
}.

Definition set_channels (c : gmap Z Channel.t) (conn : t) : t :=
  mk (id conn) c (connectStatus conn) (net_written conn) (net_closed conn)
     (ttl conn) (sendHeartbeatInterval conn) (receiveHeartbeatInterval conn)
     (maxChannels conn) (maxFrameSize conn) (stdout conn) (goroutines conn).

Definition set_net_written (w : list (list byte)) (conn : t) : t :=
  mk (id conn) (channels conn) (connectStatus conn) w (net_closed conn)
     (ttl conn) (sendHeartbeatInterval conn) (receiveHeartbeatInterval conn)
     (maxChannels conn) (maxFrameSize conn) (stdout conn) (goroutines conn).

Definition set_net_closed (b : bool) (conn : t) : t :=
  mk (id conn) (channels conn) (connectStatus conn) (net_written conn) b
     (ttl conn) (sendHeartbeatInterval conn) (receiveHeartbeatInterval conn)
     (maxChannels conn) (maxFrameSize conn) (stdout conn) (goroutines conn).

Definition set_ttl (t' : Time) (conn : t) : t :=
  mk (id conn) (channels conn) (connectStatus conn) (net_written conn)
     (net_closed conn) t' (sendHeartbeatInterval conn)
     (receiveHeartbeatInterval conn) (maxChannels conn) (maxFrameSize conn)
     (stdout conn) (goroutines conn).

Definition set_maxChannels (m : Z) (conn : t) : t :=
  mk (id conn) (channels conn) (connectStatus conn) (net_written conn)
     (net_closed conn) (ttl conn) (sendHeartbeatInterval conn)
     (receiveHeartbeatInterval conn) m (maxFrameSize conn)
     (stdout conn) (goroutines conn).

Definition set_maxFrameSize (m : Z) (conn : t) : t :=
  mk (id conn) (channels conn) (connectStatus conn) (net_written conn)
     (net_closed conn) (ttl conn) (sendHeartbeatInterval conn)
     (receiveHeartbeatInterval conn) (maxChannels conn) m
     (stdout conn) (goroutines conn).

Definition set_stdout (s : list string) (conn : t) : t :=
  mk (id conn) (channels conn) (connectStatus conn) (net_written conn)
     (net_closed conn) (ttl conn) (sendHeartbeatInterval conn)
     (receiveHeartbeatInterval conn) (maxChannels conn) (maxFrameSize conn)
     s (goroutines conn).

Definition set_goroutines (g : list ConnGoroutine) (conn : t) : t :=
  mk (id conn) (channels conn) (connectStatus conn) (net_written conn)
     (net_closed conn) (ttl conn) (sendHeartbeatInterval conn)
     (receiveHeartbeatInterval conn) (maxChannels conn) (maxFrameSize conn)
     (stdout conn) g.
End AMQPConnection.

Definition NewAMQPConnection (id : Z) : AMQPConnection.t :=
  AMQPConnection.mk id ∅ ConnectStatus.zero [] false 0 0 (10 * time_Second)
    4096 65536 [] [].

Definition Println (line : string) (conn : AMQPConnection.t) : AMQPConnection.t :=
  AMQPConnection.set_stdout (AMQPConnection.stdout conn ++ [line]) conn.

Definition network_Write (data : list byte) (conn : AMQPConnection.t) : AMQPConnection.t :=
  AMQPConnection.set_net_written (AMQPConnection.net_written conn ++ [data]) conn.

Definition cleanUp (conn : AMQPConnection.t) : AMQPConnection.t := conn.

Definition deregisterChannel (conn : AMQPConnection.t) (id : Z) : AMQPConnection.t :=
  AMQPConnection.set_channels (delete id (AMQPConnection.channels conn)) conn.

(** Only [conn.network.Close()] is live code: the rest of the body is
  commented out in the source. *)
Definition hardClose (conn : AMQPConnection.t) : AMQPConnection.t :=
  AMQPConnection.set_net_closed true conn.

Definition setMaxChannels (conn : AMQPConnection.t) (max : Z) : AMQPConnection.t :=
  AMQPConnection.set_maxChannels max conn.

Definition setMaxFrameSize (conn : AMQPConnection.t) (max : Z) : AMQPConnection.t :=
  AMQPConnection.set_maxFrameSize max conn.

(** [handleOutgoing] only starts the writer goroutine. *)
Definition handleOutgoing (conn : AMQPConnection.t) : AMQPConnection.t :=
  AMQPConnection.set_goroutines (AMQPConnection.goroutines conn ++ [GoHandleOutgoing]) conn.

(** [now] is what [time.Now()] returns during the call. *)
Definition handleFrame (conn : AMQPConnection.t) (frame : WireFrame.t) (now : Time)
    : AMQPConnection.t :=
  let conn := cleanUp conn in
  let conn :=
    AMQPConnection.set_ttl
      (time_Add now (AMQPConnection.receiveHeartbeatInterval conn * 2)) conn in
  if Z.eqb (WireFrame.FrameType frame) 8 then conn
  else if negb (ConnectStatus.open (AMQPConnection.connectStatus conn))
          && negb (Z.eqb (WireFrame.Channel frame) 0)
  then hardClose (Println "Non-0 channel for unopened connection" conn)
  else
    let (channel, conn) :=
      match AMQPConnection.channels conn !! WireFrame.Channel frame with
      | Some channel => (channel, conn)
      | None =>
          let channel := NewChannel (WireFrame.Channel frame) in
          (Channel_start channel,
           AMQPConnection.set_channels
             (<[WireFrame.Channel frame := Channel_start channel]>
                (AMQPConnection.channels conn)) conn)
      end in
    AMQPConnection.set_channels
      (<[WireFrame.Channel frame := Channel_send frame channel]>
         (AMQPConnection.channels conn)) conn.

(** What one [amqp.ReadFrame(conn.network)] call returns. *)
Inductive ReadFrameResult : Type :=
| GotFrame (frame : WireFrame.t)
| ReadFrameErr (msg : string).

(** Modelled from the spec: [amqp.ReadFrame] (package [amqp] is not among
  the sources) "reads one frame at a time"; on a network stream that was
  closed the read fails, whatever the peer sent. *)
Definition ReadFrame (conn : AMQPConnection.t) (arrives : ReadFrameResult) : ReadFrameResult :=
  if AMQPConnection.net_closed conn
  then ReadFrameErr "use of closed network connection"
  else arrives.

(** The read loop, run on what the network delivers ([arrives], each with
  the clock reading at that moment).  When [arrives] is used up the loop is
  waiting in [ReadFrame]. *)
Fixpoint handleIncoming (conn : AMQPConnection.t) (arrives : list (ReadFrameResult * Time))
    : AMQPConnection.t :=
  match arrives with
  | [] => conn
  | (r, now) :: rest =>
      if ConnectStatus.closed (AMQPConnection.connectStatus conn) then conn
      else
        match ReadFrame conn r with
        | ReadFrameErr msg => hardClose (Println ("Error reading frame: " ++ msg) conn)
        | GotFrame frame => handleIncoming (handleFrame conn frame now) rest
        end
  end.

(** [bytes.Compare]: lexicographic order on byte slices, as -1, 0 or 1. *)
Fixpoint bytes_Compare (a b : list byte) : Z :=
  match a, b with
  | [], [] => 0
  | [], _ :: _ => -1
  | _ :: _, [] => 1
  | x :: a', y :: b' =>
      match N.compare (Byte.to_N x) (Byte.to_N y) with
      | Lt => -1
      | Gt => 1
      | Eq => bytes_Compare a' b'
      end
  end.

(** What [conn.network.Read(buf)] does: the network hands over [data] (at
  most [len(buf)] bytes of it are copied to the front of [buf]) and possibly
  an error. *)
Record ReadResult : Type := mkRead {
  read_data : list byte;
  read_err : error
}.

Definition network_Read (buf : list byte) (r : ReadResult) : list byte :=
  take (length buf) (read_data r) ++ drop (length (read_data r)) buf.

(** 'A', 'M', 'Q', 'P', 0, 0, 9, 1 *)
Definition supported : list byte := [x41; x4d; x51; x50; x00; x00; x09; x01].

Definition openConnection (conn : AMQPConnection.t) (r : ReadResult)
    (arrives : list (ReadFrameResult * Time)) : AMQPConnection.t :=
  let buf := replicate 8 x00 in
  let buf := network_Read buf r in
  match read_err r with
  | Some _ => hardClose conn
  | None =>
      if negb (Z.eqb (bytes_Compare buf supported) 0) then
        hardClose (network_Write supported conn)
      else
        let conn :=
          AMQPConnection.set_channels
            (<[0 := NewChannel 0]> (AMQPConnection.channels conn)) conn in
        let conn :=
          AMQPConnection.set_channels
            (alter Channel_start 0 (AMQPConnection.channels conn)) conn in
        let conn := handleOutgoing conn in
        handleIncoming conn arrives
  end.

(** The connection right after channel 0 is created and started and the
  writer goroutine is started. *)
Definition handshakeStarted (conn : AMQPConnection.t) : AMQPConnection.t :=
  handleOutgoing
    (AMQPConnection.set_channels
       (<[0 := Channel.mk 0 true []]> (AMQPConnection.channels conn)) conn).

(** ** Runs in which nothing touches the marker

  Events that leave [deleteActive] alone: removals and the passing of
  time.  [elapsed] is the time a run of events lets pass. *)
Definition isQuiet {Table Queue : Type} (ev : @Event Table Queue) : bool :=
  match ev with
  | EvRemoveBinding _ _ => true
  | EvRemoveBindingsForQueue _ => true
  | EvTick d => Z.leb 0 d
  | _ => false
  end.

Fixpoint elapsed {Table Queue : Type} (evs : list (@Event Table Queue)) : Duration :=
  match evs with
  | [] => 0
  | EvTick d :: rest => d + elapsed rest
  | _ :: rest => elapsed rest
  end.

(** ** The receive timeout

  The goroutine of [handleClientHeartbeatTimeout] loops: leave when
  [connectStatus.closed] is set; wait for the context to end (leave) or for
  the timer; after the timer, hard-close when [conn.ttl.Before(time.Now())].
  One turn of the loop is one [TimerEvent]. *)
Inductive TimerEvent : Type :=
| CtxDone
| TimerFired (now : Time).

Inductive LoopTurn : Type :=
| LoopExit (conn : AMQPConnection.t)
| LoopAgain (conn : AMQPConnection.t).

Definition handleClientHeartbeatTimeout_turn (conn : AMQPConnection.t) (ev : TimerEvent)
    : LoopTurn :=
  if ConnectStatus.closed (AMQPConnection.connectStatus conn) then LoopExit conn
  else
    match ev with
    | CtxDone => LoopExit conn
    | TimerFired now =>
        LoopAgain (if Z.ltb (AMQPConnection.ttl conn) now then hardClose conn else conn)
    end.

Fixpoint handleClientHeartbeatTimeout_loop (conn : AMQPConnection.t)
    (evs : list TimerEvent) : AMQPConnection.t :=
  match evs with
  | [] => conn
  | ev :: rest =>
      match handleClientHeartbeatTimeout_turn conn ev with
      | LoopExit conn' => conn'
      | LoopAgain conn' => handleClientHeartbeatTimeout_loop conn' rest
      end
  end.

(** The frames among [frames] that [handleFrame] passes on to channel [id]:
  those for that channel that are not heartbeats. *)
Definition framesFor (id : Z) (frames : list (WireFrame.t * Time)) : list WireFrame.t :=
  List.filter
    (λ frame, Z.eqb (WireFrame.Channel frame) id
              && negb (Z.eqb (WireFrame.FrameType frame) 8))
    (List.map fst frames).

(** What the network delivers when every read gives a frame. *)
Definition delivered (frames : list (WireFrame.t * Time)) : list (ReadFrameResult * Time) :=
  List.map (λ ft, (GotFrame (fst ft), snd ft)) frames.

(** ** Sample values

  The names of the server test: exchange "ex-1", queue "q-1"; argument
  tables are lists of key/value pairs here, [amqp.NewTable()] the empty one. *)
Definition sampleBinding (queueName key : string) (arguments : list (string * string))
    : Binding.t (list (string * string)) :=
  Binding.mk _ queueName "ex-1" key arguments.

Definition sampleExchange (et : extype) (autodelete : bool)
    (bindings : list (Binding.t (list (string * string))))
    : Exchange.t (list (string * string)) :=
  Exchange.mk _ "ex-1" et false autodelete false [] false bindings false 0.

Definition sampleBind (queueName key : string) : QueueBind.t (list (string * string)) :=
  QueueBind.mk _ queueName "ex-1" key [].

Definition samplePublish (key : string) : Message.t :=
  Message.mk (BasicPublish.mk "ex-1" key).

(** 2023-11-14 22:13:20 UTC. *)
Definition sampleClock : Time := time_Unix 1700000000 0.

Definition sampleWorld (exchange : Exchange.t (list (string * string)))
    : @World (list (string * string)) :=
  mkWorld exchange sampleClock [] [] [].

(** Two seconds pass, the bindings of another queue are removed, three more
  seconds pass. *)
Definition sampleQuiet : list (@Event (list (string * string)) string) :=
  [EvTick (2 * time_Second); EvRemoveBindingsForQueue "q-9"; EvTick (3 * time_Second)].

(** * Properties *)

Lemma occurrences_notin {A : Type} `{EqDecision A} (x : A) (l : list A) :
  x ∉ l → occurrences x l = 0%nat.
Proof.
  unfold occurrences. induction l as [|y l IH]; intros Hx; [reflexivity|].
  apply not_elem_of_cons in Hx as [Hne Hx]. simpl.
  rewrite bool_decide_eq_false_2 by congruence. auto.
Qed.

Lemma occurrences_NoDup {A : Type} `{EqDecision A} (x : A) (l : list A) :
  NoDup l → x ∈ l → occurrences x l = 1%nat.
Proof.
  unfold occurrences. induction 1 as [|y l Hy Hnd IH]; intros Hx.
  - inversion Hx.
  - simpl. destruct (decide (y = x)) as [->|Hne].
    + rewrite bool_decide_eq_true_2 by reflexivity. simpl.
      f_equal. apply (occurrences_notin x l Hy).
    + rewrite bool_decide_eq_false_2 by assumption.
      apply IH. apply elem_of_cons in Hx as [Hx|Hx]; congruence.
Qed.

Section ExchangeProperties.
Context {Table : Type} `{EqDecision Table}.
Context {Queue : Type}.

Local Abbreviation Binding := (Binding.t Table).
Local Abbreviation Exchange := (Exchange.t Table).
Local Abbreviation Outcome := (Outcome.t Table).

(** ** Routing *)

(** The loop adds to [queues] exactly the queue names of the matching
  bindings, each with the value [true], and leaves old keys alone. *)
Lemma rangeBindings_lookup (matches : Binding → bool) (bindings : list Binding)
    (queues : gmap string bool) (q : string) :
  rangeBindings matches bindings queues !! q =
    match queues !! q with
    | Some v => Some v
    | None =>
        if existsb (λ b, matches b && bool_decide (Binding.queueName b = q)) bindings
        then Some true else None
    end.
Proof.
  revert queues. induction bindings as [|b rest IH]; intros queues; simpl.
  - destruct (queues !! q); reflexivity.
  - destruct (matches b) eqn:Hm; simpl; [|apply IH].
    destruct (queues !! Binding.queueName b) as [v|] eqn:Hb.
    + rewrite IH. destruct (decide (Binding.queueName b = q)) as [<-|Hne].
      * rewrite Hb. reflexivity.
      * rewrite (bool_decide_eq_false_2 _ Hne). reflexivity.
    + rewrite IH. destruct (decide (Binding.queueName b = q)) as [<-|Hne].
      * rewrite lookup_insert_eq, Hb, bool_decide_eq_true_2 by reflexivity.
        reflexivity.
      * rewrite lookup_insert_ne by assumption.
        rewrite (bool_decide_eq_false_2 _ Hne). reflexivity.
Qed.

Lemma rangeBindings_empty_lookup (matches : Binding → bool) (bindings : list Binding)
    (q : string) :
  rangeBindings matches bindings ∅ !! q = Some true
  ↔ ∃ b, b ∈ bindings ∧ Binding.queueName b = q ∧ matches b = true.
Proof.
  rewrite rangeBindings_lookup, lookup_empty.
  destruct (existsb _ bindings) eqn:Hex.
  - split; [intros _|reflexivity].
    apply existsb_exists in Hex as (b & Hin & Hb).
    apply andb_true_iff in Hb as [Hm Hq]. apply bool_decide_eq_true in Hq.
    exists b. split; [apply list_elem_of_In; assumption|auto].
  - split; [discriminate|]. intros (b & Hin & Hq & Hm). exfalso.
    assert (existsb (λ b, matches b && bool_decide (Binding.queueName b = q)) bindings = true)
      as Htrue; [|congruence].
    apply existsb_exists. exists b. split; [apply list_elem_of_In; assumption|].
    rewrite Hm, bool_decide_eq_true_2 by assumption. reflexivity.
Qed.

Lemma rangeBindings_empty_is_Some (matches : Binding → bool) (bindings : list Binding)
    (q : string) :
  is_Some (rangeBindings matches bindings ∅ !! q)
  → rangeBindings matches bindings ∅ !! q = Some true.
Proof.
  rewrite rangeBindings_lookup, lookup_empty.
  destruct (existsb _ bindings); [reflexivity|]. intros [v Hv]. discriminate.
Qed.

Lemma matchDirect_spec (b : Binding) (message : BasicPublish.t) :
  matchDirect b message = true ↔ Binding.key b = BasicPublish.RoutingKey message.
Proof. unfold matchDirect. apply String.eqb_eq. Qed.

(** C1: on a direct exchange [queuesForPublish] returns (does not panic); a
  queue name is a key of the returned map if and only if some binding of
  the exchange with that queue name has a routing key equal to the
  message's routing key; every key maps to [true] and occurs exactly once
  among the keys of the map, however many matching bindings target it. *)
Theorem queuesForPublish_direct (exchange : Exchange) (msg : Message.t) :
  Exchange.extype exchange = EX_TYPE_DIRECT →
  ∃ queues : gmap string bool,
    queuesForPublish exchange msg = Ok queues
    ∧ (∀ q : string,
         is_Some (queues !! q)
         ↔ ∃ b, b ∈ Exchange.bindings exchange
                ∧ Binding.queueName b = q
                ∧ Binding.key b = BasicPublish.RoutingKey (Message.Method msg))
    ∧ (∀ q : string,
         is_Some (queues !! q)
         → queues !! q = Some true
           ∧ occurrences q (map_to_list queues).*1 = 1%nat).
Proof.
  intros Htype. unfold queuesForPublish. rewrite Htype. simpl.
  eexists. split; [reflexivity|]. split.
  - intros q. split.
    + intros Hsome. apply rangeBindings_empty_is_Some in Hsome.
      apply rangeBindings_empty_lookup in Hsome as (b & Hin & Hq & Hm).
      exists b. rewrite <- matchDirect_spec. auto.
    + intros (b & Hin & Hq & Hk). exists true.
      apply rangeBindings_empty_lookup. exists b.
      rewrite matchDirect_spec. auto.
  - intros q Hsome. split; [apply rangeBindings_empty_is_Some, Hsome|].
    apply occurrences_NoDup; [apply NoDup_fst_map_to_list|].
    destruct Hsome as [v Hv]. apply list_elem_of_fmap.
    exists (q, v). split; [reflexivity|]. apply elem_of_map_to_list, Hv.
Qed.

(** ** Topic matching *)

Lemma splitWords_nonempty (s : string) : splitWords s ≠ [].
Proof.
  destruct s as [|c rest]; simpl; [discriminate|].
  destruct (Ascii.eqb c "."); [discriminate|].
  destruct (splitWords rest); discriminate.
Qed.

(** Joining the words with dots gives the string back. *)
Lemma splitWords_concat (s : string) : String.concat "." (splitWords s) = s.
Proof.
  induction s as [|c rest IH]; [reflexivity|]. simpl.
  pose proof (splitWords_nonempty rest) as Hne.
  destruct (Ascii.eqb_spec c ".") as [->|Hc].
  - destruct (splitWords rest) as [|w ws] eqn:Hs; [congruence|].
    change (String.concat "." ("" :: w :: ws))
      with (String "." (String.concat "." (w :: ws))).
    rewrite IH. reflexivity.
  - destruct (splitWords rest) as [|w ws] eqn:Hs; [congruence|].
    rewrite <- IH. destruct ws; reflexivity.
Qed.

(** No word has a dot in it. *)
Lemma splitWords_noDot (s : string) : Forall (λ w, hasDot w = false) (splitWords s).
Proof.
  induction s as [|c rest IH]; simpl; [repeat constructor|].
  destruct (Ascii.eqb c ".") eqn:Hc; [constructor; [reflexivity|assumption]|].
  destruct (splitWords rest) as [|w ws]; [repeat constructor; simpl; rewrite Hc; reflexivity|].
  inversion IH; subst. constructor; [simpl; rewrite Hc; assumption|assumption].
Qed.

Lemma matchWords_hash (pattern words : list string) :
  matchWords ("#" :: pattern) words =
    matchWords pattern words
    || match words with
       | [] => false
       | _ :: words' => matchWords ("#" :: pattern) words'
       end.
Proof. destruct words; reflexivity. Qed.

Lemma matchWords_hash_drop (pattern words : list string) :
  matchWords ("#" :: pattern) words = true
  ↔ ∃ n : nat, (n ≤ length words)%nat ∧ matchWords pattern (drop n words) = true.
Proof.
  induction words as [|w words IH]; rewrite matchWords_hash.
  - rewrite orb_false_r. split.
    + intros Hm. exists 0%nat. split; [reflexivity|exact Hm].
    + intros (n & _ & Hm). rewrite drop_nil in Hm. exact Hm.
  - rewrite orb_true_iff, IH. split.
    + intros [Hm|(n & Hn & Hm)].
      * exists 0%nat. split; [simpl; lia|exact Hm].
      * exists (S n). split; [simpl; lia|exact Hm].
    + intros ([|n] & Hn & Hm); [left; exact Hm|].
      right. exists n. split; [simpl in Hn; lia|exact Hm].
Qed.

Lemma matchWords_only_hash (words : list string) : matchWords ["#"] words = true.
Proof.
  apply matchWords_hash_drop. exists (length words).
  split; [reflexivity|]. rewrite drop_all. reflexivity.
Qed.

(** C2: topic matching works on the dot-delimited words of pattern and
  routing key (joining the words with dots gives the string back, and no
  word has a dot); a pattern word [*] takes exactly one word, [#] takes
  zero or more words, any other pattern word takes one equal word; pattern
  "a.*.c" matches "a.b.c" and not "a.b.b.c"; pattern "a.#" matches "a",
  "a.b" and "a.b.c"; pattern "#" matches every key, the empty one too. *)
Theorem matchTopic_spec :
  (∀ (b : Binding) (message : BasicPublish.t),
     matchTopic b message =
       matchWords (splitWords (Binding.key b))
         (splitWords (BasicPublish.RoutingKey message)))
  ∧ (∀ s : string,
       String.concat "." (splitWords s) = s
       ∧ Forall (λ w, hasDot w = false) (splitWords s))
  ∧ (∀ pattern words,
       matchWords ("*" :: pattern) words = true
       ↔ ∃ w words', words = w :: words' ∧ matchWords pattern words' = true)
  ∧ (∀ pattern words,
       matchWords ("#" :: pattern) words = true
       ↔ ∃ n : nat, (n ≤ length words)%nat
                    ∧ matchWords pattern (drop n words) = true)
  ∧ (∀ p pattern words, p ≠ "#" → p ≠ "*" →
       matchWords (p :: pattern) words = true
       ↔ ∃ words', words = p :: words' ∧ matchWords pattern words' = true)
  ∧ (∀ words, matchWords [] words = true ↔ words = [])
  ∧ topicMatches "a.*.c" "a.b.c" = true
  ∧ topicMatches "a.*.c" "a.b.b.c" = false
  ∧ topicMatches "a.#" "a" = true
  ∧ topicMatches "a.#" "a.b" = true
  ∧ topicMatches "a.#" "a.b.c" = true
  ∧ (∀ routingKey : string, topicMatches "#" routingKey = true)
  ∧ topicMatches "#" "" = true.
Proof.
  split; [reflexivity|].
  split; [intros s; split; [apply splitWords_concat|apply splitWords_noDot]|].
  split.
  { intros pattern words. simpl. destruct words as [|w words'].
    - split; [discriminate|]. intros (w & words' & Hw & _). discriminate.
    - split.
      + intros Hm. exists w, words'. split; [reflexivity|exact Hm].
      + intros (w0 & words0 & Hw & Hm). injection Hw as -> ->. exact Hm. }
  split; [apply matchWords_hash_drop|].
  split.
  { intros p pattern words Hhash Hstar. simpl.
    apply String.eqb_neq in Hhash, Hstar. rewrite Hhash, Hstar. simpl.
    destruct words as [|w words'].
    - split; [discriminate|]. intros (words' & Hw & _). discriminate.
    - rewrite andb_true_iff, String.eqb_eq. split.
      + intros [-> Hm]. exists words'. split; [reflexivity|exact Hm].
      + intros (words0 & Hw & Hm). injection Hw as -> ->. split; [reflexivity|exact Hm]. }
  split.
  { intros [|w words]; simpl; split; try reflexivity; discriminate. }
  repeat (split; [reflexivity|]).
  split; [|reflexivity].
  intros routingKey. unfold topicMatches.
  change (splitWords "#") with ["#"]. apply matchWords_only_hash.
Qed.

(** ** Equivalence of exchange declarations *)

(** C4: [equivalentExchanges] is true exactly when name, type, durable
  flag, internal flag and argument table agree; auto-delete is not looked
  at, so two exchanges that differ only there are equivalent, and a
  difference in any of the five compared fields makes the result false. *)
Theorem equivalentExchanges_spec (ex1 ex2 : Exchange) :
  (equivalentExchanges ex1 ex2 = true
   ↔ Exchange.name ex1 = Exchange.name ex2
     ∧ Exchange.extype ex1 = Exchange.extype ex2
     ∧ Exchange.durable ex1 = Exchange.durable ex2
     ∧ Exchange.internal ex1 = Exchange.internal ex2
     ∧ Exchange.arguments ex1 = Exchange.arguments ex2)
  ∧ (∀ a : bool, equivalentExchanges ex1 (Exchange.set_autodelete a ex1) = true)
  ∧ (Exchange.name ex1 ≠ Exchange.name ex2
     ∨ Exchange.extype ex1 ≠ Exchange.extype ex2
     ∨ Exchange.durable ex1 ≠ Exchange.durable ex2
     ∨ Exchange.internal ex1 ≠ Exchange.internal ex2
     ∨ Exchange.arguments ex1 ≠ Exchange.arguments ex2
     → equivalentExchanges ex1 ex2 = false).
Proof.
  assert (equivalentExchanges ex1 ex2 = true
          ↔ Exchange.name ex1 = Exchange.name ex2
            ∧ Exchange.extype ex1 = Exchange.extype ex2
            ∧ Exchange.durable ex1 = Exchange.durable ex2
            ∧ Exchange.internal ex1 = Exchange.internal ex2
            ∧ Exchange.arguments ex1 = Exchange.arguments ex2) as Hiff.
  { unfold equivalentExchanges, EquivalentTables.
    destruct (String.eqb_spec (Exchange.name ex1) (Exchange.name ex2)); simpl;
      [|split; [discriminate|tauto]].
    destruct (Z.eqb_spec (Exchange.extype ex1) (Exchange.extype ex2)); simpl;
      [|split; [discriminate|tauto]].
    destruct (Bool.eqb_spec (Exchange.durable ex1) (Exchange.durable ex2)); simpl;
      [|split; [discriminate|tauto]].
    destruct (Bool.eqb_spec (Exchange.internal ex1) (Exchange.internal ex2)); simpl;
      [|split; [discriminate|tauto]].
    destruct (decide (Exchange.arguments ex1 = Exchange.arguments ex2)) as [He|Hne].
    - rewrite (bool_decide_eq_true_2 _ He). simpl. tauto.
    - rewrite (bool_decide_eq_false_2 _ Hne). simpl. split; [discriminate|tauto]. }
  split; [exact Hiff|]. split.
  - intros a. unfold equivalentExchanges, EquivalentTables. simpl.
    rewrite String.eqb_refl, Z.eqb_refl, !Bool.eqb_reflx.
    rewrite bool_decide_eq_true_2 by reflexivity. reflexivity.
  - intros Hdiff. apply not_true_is_false. intros Heq.
    apply Hiff in Heq. tauto.
Qed.

(** ** Binding mutations *)

Lemma Equals_eq (binding other : Binding) : Equals binding other = true ↔ binding = other.
Proof.
  unfold Equals, EquivalentTables.
  rewrite !andb_true_iff, !bool_decide_eq_true.
  destruct binding, other; simpl. split.
  - intros [[[-> ->] ->] ->]. reflexivity.
  - intros [= -> -> -> ->]. auto.
Qed.

Lemma Equals_refl (binding : Binding) : Equals binding binding = true.
Proof. apply Equals_eq. reflexivity. Qed.

Lemma existsb_Equals (binding : Binding) (bindings : list Binding) :
  existsb (λ b, Equals binding b) bindings = true ↔ binding ∈ bindings.
Proof.
  rewrite existsb_exists. split.
  - intros (b & Hin & Heq). apply Equals_eq in Heq as ->.
    apply list_elem_of_In, Hin.
  - intros Hin. exists binding. split; [apply list_elem_of_In, Hin|apply Equals_refl].
Qed.

Lemma noEqualBindings_NoDup (exchange : Exchange) :
  noEqualBindings exchange ↔ NoDup (Exchange.bindings exchange).
Proof.
  rewrite NoDup_alt. unfold noEqualBindings. split.
  - intros Hinv i j b Hi Hj. apply (Hinv i j b b Hi Hj), Equals_refl.
  - intros Hnd i j b1 b2 Hi Hj Heq. apply Equals_eq in Heq as ->.
    apply (Hnd i j b2 Hi Hj).
Qed.

Lemma countEqual_NoDup (binding : Binding) (bindings : list Binding) :
  NoDup bindings → binding ∈ bindings → countEqual binding bindings = 1%nat.
Proof.
  intros Hnd Hin. rewrite <- (occurrences_NoDup binding bindings Hnd Hin).
  unfold countEqual, occurrences. f_equal. apply List.filter_ext. intros b.
  destruct (decide (b = binding)) as [->|Hne].
  - rewrite Equals_refl, bool_decide_eq_true_2; reflexivity.
  - rewrite bool_decide_eq_false_2 by assumption.
    apply not_true_is_false. rewrite Equals_eq. congruence.
Qed.

(** [firstEqual] finds nothing exactly when no stored binding is equal. *)
Lemma firstEqual_None (binding : Binding) (bindings : list Binding) (i : nat) :
  firstEqual binding bindings i = None ↔ binding ∉ bindings.
Proof.
  revert i. induction bindings as [|b rest IH]; intros i; simpl.
  - split; [intros _; apply not_elem_of_nil|reflexivity].
  - rewrite not_elem_of_cons. destruct (Equals binding b) eqn:Heq.
    + apply Equals_eq in Heq. split; [discriminate|]. intros [Hne _]. congruence.
    + rewrite IH. split; [|tauto]. intros Hnot. split; [|exact Hnot].
      intros ->. rewrite Equals_refl in Heq. discriminate.
Qed.

(** When it finds one, the index (counted from [i]) is in range and holds
  an equal binding. *)
Lemma firstEqual_Some (binding : Binding) (bindings : list Binding) (i j : nat) :
  firstEqual binding bindings i = Some j
  → ∃ k : nat, j = (i + k)%nat ∧ bindings !! k = Some binding.
Proof.
  revert i. induction bindings as [|b rest IH]; intros i; simpl; [discriminate|].
  destruct (Equals binding b) eqn:Heq.
  - intros [= <-]. apply Equals_eq in Heq as <-. exists 0%nat.
    split; [lia|reflexivity].
  - intros Hf. apply IH in Hf as (k & -> & Hk). exists (S k). split; [lia|exact Hk].
Qed.

Lemma addBinding_equal_stored (exchange : Exchange) (method : QueueBind.t Table)
    (connId : Z) (fromDisk : bool) :
  NewBinding (QueueBind.Queue method) (QueueBind.Exchange method)
    (QueueBind.RoutingKey method) (QueueBind.Arguments method)
    ∈ Exchange.bindings exchange
  → addBinding exchange method connId fromDisk = Outcome.mk Table exchange [] nil_error.
Proof.
  intros Hin. unfold addBinding. apply existsb_Equals in Hin. rewrite Hin. reflexivity.
Qed.

Lemma addBinding_bindings (exchange : Exchange) (method : QueueBind.t Table)
    (connId : Z) (fromDisk : bool) :
  let binding := NewBinding (QueueBind.Queue method) (QueueBind.Exchange method)
                   (QueueBind.RoutingKey method) (QueueBind.Arguments method) in
  Exchange.bindings (Outcome.exchange (addBinding exchange method connId fromDisk)) =
    if existsb (λ b, Equals binding b) (Exchange.bindings exchange)
    then Exchange.bindings exchange
    else (Exchange.bindings exchange ++ [binding])%list.
Proof.
  simpl. unfold addBinding. destruct (existsb _ _); [reflexivity|].
  destruct (Exchange.autodelete exchange); reflexivity.
Qed.

Lemma addBinding_NoDup (exchange : Exchange) (method : QueueBind.t Table)
    (connId : Z) (fromDisk : bool) :
  NoDup (Exchange.bindings exchange)
  → NoDup (Exchange.bindings (Outcome.exchange (addBinding exchange method connId fromDisk))).
Proof.
  intros Hnd. rewrite addBinding_bindings.
  destruct (existsb _ _) eqn:Hex; [exact Hnd|].
  apply NoDup_app. split; [exact Hnd|]. split; [|apply NoDup_singleton].
  intros b Hb Hb'. apply list_elem_of_singleton in Hb' as ->.
  apply existsb_Equals in Hb. congruence.
Qed.

Lemma removeBinding_bindings (exchange : Exchange) (queue : Queue) (binding : Binding) :
  Exchange.bindings (Outcome.exchange (removeBinding exchange queue binding)) =
    match firstEqual binding (Exchange.bindings exchange) 0 with
    | Some i => delete i (Exchange.bindings exchange)
    | None => Exchange.bindings exchange
    end.
Proof.
  unfold removeBinding. destruct (firstEqual _ _ _) as [i|]; [|reflexivity].
  rewrite delete_take_drop. simpl. destruct (_ && _); reflexivity.
Qed.

Lemma removeBinding_NoDup (exchange : Exchange) (queue : Queue) (binding : Binding) :
  NoDup (Exchange.bindings exchange)
  → NoDup (Exchange.bindings (Outcome.exchange (removeBinding exchange queue binding))).
Proof.
  intros Hnd. rewrite removeBinding_bindings.
  destruct (firstEqual _ _ _); [|exact Hnd].
  eapply sublist_NoDup; [exact Hnd|apply sublist_delete].
Qed.

Lemma removeBindingsForQueue_NoDup (exchange : Exchange) (queueName : string) :
  NoDup (Exchange.bindings exchange)
  → NoDup (Exchange.bindings (Outcome.exchange (removeBindingsForQueue exchange queueName))).
Proof.
  intros Hnd. simpl.
  apply NoDup_ListNoDup, List.NoDup_filter, NoDup_ListNoDup, Hnd.
Qed.

Lemma step_NoDup (w w' : @World Table) (ev : @Event Table Queue) :
  step w ev = Some w'
  → NoDup (Exchange.bindings (w_exchange w))
  → NoDup (Exchange.bindings (w_exchange w')).
Proof.
  destruct ev as [method connId fromDisk|queue binding|queueName| |now|d]; simpl.
  - intros [= <-]. apply addBinding_NoDup.
  - intros [= <-]. apply removeBinding_NoDup.
  - intros [= <-]. apply removeBindingsForQueue_NoDup.
  - destruct (w_started w) as [|[] rest]; [discriminate|]. intros [= <-]. auto.
  - destruct (wakeSleeper _ _ _); [|discriminate]. intros [= <-]. auto.
  - destruct (Z.leb 0 d); [|discriminate]. intros [= <-]. auto.
Qed.

Lemma run_NoDup (evs : list (@Event Table Queue)) (w w' : @World Table) :
  run w evs = Some w'
  → NoDup (Exchange.bindings (w_exchange w))
  → NoDup (Exchange.bindings (w_exchange w')).
Proof.
  revert w. induction evs as [|ev evs IH]; intros w; simpl.
  - intros [= <-]. auto.
  - destruct (step w ev) as [w1|] eqn:Hstep; [|discriminate].
    intros Hrun Hnd. apply (IH w1 Hrun). apply (step_NoDup w w1 ev Hstep Hnd).
Qed.

(** C3: an exchange whose collection holds no two equal bindings keeps
  that property under every operation ([addBinding], [removeBinding],
  [removeBindingsForQueue], both halves of the timeout, [close], and so
  every run of events); [addBinding] with a tuple equal to a stored binding
  returns nil and leaves the exchange as it was; and after [addBinding] is
  called twice with the same tuple exactly one stored binding equals it. *)
Theorem bindings_never_equal (exchange : Exchange) :
  noEqualBindings exchange →
  (∀ method connId fromDisk,
     noEqualBindings (Outcome.exchange (addBinding exchange method connId fromDisk)))
  ∧ (∀ (queue : Queue) binding,
       noEqualBindings (Outcome.exchange (removeBinding exchange queue binding)))
  ∧ (∀ queueName,
       noEqualBindings (Outcome.exchange (removeBindingsForQueue exchange queueName)))
  ∧ (∀ now, noEqualBindings (autodeleteTimeout_begin exchange now))
  ∧ noEqualBindings (close exchange)
  ∧ (∀ clock started sleeping deleteChan (evs : list (@Event Table Queue)) w',
       run (mkWorld exchange clock started sleeping deleteChan) evs = Some w'
       → noEqualBindings (w_exchange w'))
  ∧ (∀ method connId fromDisk b,
       b ∈ Exchange.bindings exchange
       → Equals (NewBinding (QueueBind.Queue method) (QueueBind.Exchange method)
                   (QueueBind.RoutingKey method) (QueueBind.Arguments method)) b = true
       → addBinding exchange method connId fromDisk
         = Outcome.mk Table exchange [] nil_error)
  ∧ (∀ method connId fromDisk connId' fromDisk',
       let once := Outcome.exchange (addBinding exchange method connId fromDisk) in
       let twice := addBinding once method connId' fromDisk' in
       twice = Outcome.mk Table once [] nil_error
       ∧ countEqual (NewBinding (QueueBind.Queue method) (QueueBind.Exchange method)
                       (QueueBind.RoutingKey method) (QueueBind.Arguments method))
           (Exchange.bindings (Outcome.exchange twice)) = 1%nat).
Proof.
  intros Hinv. pose proof (proj1 (noEqualBindings_NoDup exchange) Hinv) as Hnd.
  repeat split.
  - intros. apply noEqualBindings_NoDup, addBinding_NoDup, Hnd.
  - intros. apply noEqualBindings_NoDup, removeBinding_NoDup, Hnd.
  - intros. apply noEqualBindings_NoDup, removeBindingsForQueue_NoDup, Hnd.
  - intros. exact Hinv.
  - exact Hinv.
  - intros clock started sleeping deleteChan evs w' Hrun.
    apply noEqualBindings_NoDup. apply (run_NoDup evs _ w' Hrun). exact Hnd.
  - intros method connId fromDisk b Hin Heq. apply Equals_eq in Heq as <-.
    apply addBinding_equal_stored, Hin.
  - apply addBinding_equal_stored. rewrite addBinding_bindings.
    destruct (existsb _ _) eqn:Hex; [apply existsb_Equals, Hex|].
    apply elem_of_app. right. apply list_elem_of_singleton. reflexivity.
  - assert (NewBinding (QueueBind.Queue method) (QueueBind.Exchange method)
              (QueueBind.RoutingKey method) (QueueBind.Arguments method)
            ∈ Exchange.bindings
                (Outcome.exchange (addBinding exchange method connId fromDisk))) as Hin.
    { rewrite addBinding_bindings.
      destruct (existsb _ _) eqn:Hex; [apply existsb_Equals, Hex|].
      apply elem_of_app. right. apply list_elem_of_singleton. reflexivity. }
    rewrite (addBinding_equal_stored _ method connId' fromDisk' Hin). simpl.
    apply countEqual_NoDup; [apply addBinding_NoDup, Hnd|exact Hin].
Qed.

(** C8: [addBinding] and [removeBinding] return a nil error on every
  input, and [removeBinding] of a binding that no stored binding equals
  changes nothing and starts nothing. *)
Theorem binding_mutations_return_nil :
  (∀ (exchange : Exchange) method connId fromDisk,
     Outcome.err (addBinding exchange method connId fromDisk) = nil_error)
  ∧ (∀ (exchange : Exchange) (queue : Queue) binding,
       Outcome.err (removeBinding exchange queue binding) = nil_error)
  ∧ (∀ (exchange : Exchange) (queue : Queue) binding,
       (∀ b, b ∈ Exchange.bindings exchange → Equals binding b = false)
       → removeBinding exchange queue binding = Outcome.mk Table exchange [] nil_error).
Proof.
  repeat split.
  - intros. unfold addBinding. destruct (existsb _ _); reflexivity.
  - intros. unfold removeBinding. destruct (firstEqual _ _ _); [|reflexivity].
    destruct (_ && _); reflexivity.
  - intros exchange queue binding Hnone. unfold removeBinding.
    assert (firstEqual binding (Exchange.bindings exchange) 0 = None) as ->; [|reflexivity].
    apply firstEqual_None. intros Hin. specialize (Hnone binding Hin).
    rewrite Equals_refl in Hnone. discriminate.
Qed.

(** C9: [removeBindingsForQueue] starts no goroutine and leaves
  [deleteActive] as it was, also on an auto-delete exchange all of whose
  bindings target the given queue, whose collection it empties; [addBinding]
  starts nothing either; [removeBinding] starts the timeout exactly when the
  exchange is auto-delete and the removal of a found binding leaves the
  collection empty. *)
Theorem removeBindingsForQueue_starts_no_timeout :
  (∀ (exchange : Exchange) queueName,
     Outcome.started (removeBindingsForQueue exchange queueName) = []
     ∧ Exchange.deleteActive (Outcome.exchange (removeBindingsForQueue exchange queueName))
       = Exchange.deleteActive exchange)
  ∧ (∀ (exchange : Exchange) queueName,
       Exchange.autodelete exchange = true
       → (∀ b, b ∈ Exchange.bindings exchange → Binding.queueName b = queueName)
       → Exchange.bindings (Outcome.exchange (removeBindingsForQueue exchange queueName)) = []
         ∧ Outcome.started (removeBindingsForQueue exchange queueName) = []
         ∧ Exchange.deleteActive (Outcome.exchange (removeBindingsForQueue exchange queueName))
           = Exchange.deleteActive exchange)
  ∧ (∀ (exchange : Exchange) method connId fromDisk,
       Outcome.started (addBinding exchange method connId fromDisk) = [])
  ∧ (∀ (exchange : Exchange) (queue : Queue) binding,
       Outcome.started (removeBinding exchange queue binding) =
         if Exchange.autodelete exchange
            && bool_decide (binding ∈ Exchange.bindings exchange)
            && Nat.eqb (length (Exchange.bindings
                                  (Outcome.exchange (removeBinding exchange queue binding)))) 0
         then [GoAutodeleteTimeout] else [])
  ∧ (∀ (exchange : Exchange) (queue : Queue) binding,
       Exchange.deleteActive (Outcome.exchange (removeBinding exchange queue binding))
       = Exchange.deleteActive exchange).
Proof.
  split; [intros; split; reflexivity|]. split.
  { intros exchange queueName _ Hall. split; [|split; reflexivity]. simpl.
    induction (Exchange.bindings exchange) as [|b rest IH]; [reflexivity|]. simpl.
    rewrite (Hall b) by (left). rewrite String.eqb_refl. simpl.
    apply IH. intros b' Hb'. apply Hall. right. exact Hb'. }
  split.
  { intros. unfold addBinding. destruct (existsb _ _); reflexivity. }
  split.
  - intros exchange queue binding. unfold removeBinding.
    destruct (firstEqual binding (Exchange.bindings exchange) 0) as [i|] eqn:Hf.
    + assert (binding ∈ Exchange.bindings exchange) as Hin.
      { destruct (decide (binding ∈ Exchange.bindings exchange)) as [Hin|Hnot]; [exact Hin|].
        apply (firstEqual_None binding _ 0%nat) in Hnot. congruence. }
      rewrite (bool_decide_eq_true_2 _ Hin), andb_true_r. simpl.
      destruct (Exchange.autodelete exchange); simpl; [|reflexivity].
      destruct (length _ =? 0)%nat eqn:Hlen; simpl; rewrite ?Hlen; reflexivity.
    + apply firstEqual_None in Hf. rewrite (bool_decide_eq_false_2 _ Hf).
      rewrite andb_false_r. reflexivity.
  - intros exchange queue binding. unfold removeBinding.
    destruct (firstEqual _ _ _); [|reflexivity]. destruct (_ && _); reflexivity.
Qed.

(** C10: [addBinding] with a tuple equal to a stored binding leaves the
  whole exchange, and so its [deleteActive] marker, unchanged, auto-delete
  or not; whenever [addBinding] does change the marker, the exchange is
  auto-delete, the marker is now the epoch and the new binding was appended. *)
Theorem addBinding_equal_keeps_marker (exchange : Exchange)
    (method : QueueBind.t Table) (connId : Z) (fromDisk : bool) :
  let binding := NewBinding (QueueBind.Queue method) (QueueBind.Exchange method)
                   (QueueBind.RoutingKey method) (QueueBind.Arguments method) in
  let after := Outcome.exchange (addBinding exchange method connId fromDisk) in
  ((∃ b, b ∈ Exchange.bindings exchange ∧ Equals binding b = true)
   → after = exchange ∧ Exchange.deleteActive after = Exchange.deleteActive exchange)
  ∧ (Exchange.deleteActive after ≠ Exchange.deleteActive exchange
     → Exchange.autodelete exchange = true
       ∧ Exchange.deleteActive after = time_Unix 0 0
       ∧ Exchange.bindings after = (Exchange.bindings exchange ++ [binding])%list)
  ∧ ((∀ b, b ∈ Exchange.bindings exchange → Equals binding b = false)
     → Exchange.autodelete exchange = true
     → Exchange.deleteActive after = time_Unix 0 0
       ∧ Exchange.bindings after = (Exchange.bindings exchange ++ [binding])%list).
Proof.
  simpl. split; [|split].
  - intros (b & Hin & Heq). apply Equals_eq in Heq as <-.
    rewrite (addBinding_equal_stored _ _ _ _ Hin). split; reflexivity.
  - unfold addBinding. destruct (existsb _ _); simpl; [congruence|].
    destruct (Exchange.autodelete exchange); simpl; [auto|congruence].
  - intros Hnone Hauto. unfold addBinding.
    destruct (existsb _ _) eqn:Hex.
    + apply existsb_Equals in Hex. specialize (Hnone _ Hex).
      rewrite Equals_refl in Hnone. discriminate.
    + rewrite Hauto. simpl. auto.
Qed.

(** ** The auto-delete timeout *)

Lemma wakeSleeper_is_Some (now clock until : Time) (sleeping : list (Time * Time)) :
  (now, until) ∈ sleeping → until ≤ clock → is_Some (wakeSleeper now clock sleeping).
Proof.
  intros Hin Hle. induction sleeping as [|[n u] rest IH]; [inversion Hin|]. simpl.
  destruct (Z.eqb n now && Z.leb u clock) eqn:Hc; [eexists; reflexivity|].
  apply elem_of_cons in Hin as [[= <- <-]|Hin].
  - rewrite Z.eqb_refl in Hc. simpl in Hc. apply Z.leb_gt in Hc. lia.
  - destruct (IH Hin) as [r ->]. eexists; reflexivity.
Qed.

(** A timeout that wakes up with a marker different from its [now] sends
  nothing; one that finds its own [now] sends the exchange. *)
Lemma autodeleteTimeout_wake_spec (exchange : Exchange) (now : Time) :
  autodeleteTimeout_wake exchange now =
    if decide (Exchange.deleteActive exchange = now) then [exchange] else [].
Proof.
  unfold autodeleteTimeout_wake.
  destruct (Z.eqb_spec (Exchange.deleteActive exchange) now), (decide _);
    congruence.
Qed.

Lemma removeBinding_last (exchange : Exchange) (queue : Queue) (binding b0 : Binding) :
  Exchange.autodelete exchange = true
  → Exchange.bindings exchange = [b0]
  → Equals binding b0 = true
  → removeBinding exchange queue binding =
      Outcome.mk Table (Exchange.set_bindings [] exchange) [GoAutodeleteTimeout] nil_error.
Proof.
  intros Hauto Hb Heq. unfold removeBinding. rewrite Hb. simpl. rewrite Heq. simpl.
  rewrite Hauto. reflexivity.
Qed.

(** Without a new binding the timeout does fire: the events of C7 minus
  the [addBinding] send the (empty) exchange on [deleteChan]. *)
Lemma timeout_fires_when_nothing_added (w : @World Table) (queue : Queue)
    (binding b0 : Binding) (d0 d1 : Duration) :
  Exchange.autodelete (w_exchange w) = true
  → Exchange.bindings (w_exchange w) = [b0]
  → Equals binding b0 = true
  → 0 ≤ d0 → autodeleteWindow ≤ d1
  → ∃ w' : @World Table,
      run w [EvRemoveBinding queue binding; EvTick d0; EvTimeoutBegin; EvTick d1;
             EvTimeoutWake (time_Add (w_clock w) d0)] = Some w'
      ∧ w_deleteChan w' =
          (w_deleteChan w
           ++ [Exchange.set_deleteActive (time_Add (w_clock w) d0)
                 (Exchange.set_bindings [] (w_exchange w))])%list.
Proof.
  intros Hauto Hb Heq Hd0 Hd1. unfold autodeleteWindow, time_Second in Hd1.
  simpl. rewrite (removeBinding_last _ queue binding b0 Hauto Hb Heq).
  unfold after. simpl. rewrite (proj2 (Z.leb_le 0 d0) Hd0). simpl.
  destruct (w_started w ++ [GoAutodeleteTimeout])%list as [|[] rest] eqn:Hst.
  { destruct (w_started w); discriminate. }
  simpl. rewrite (proj2 (Z.leb_le 0 d1)) by lia. simpl.
  set (now := time_Add (w_clock w) d0).
  destruct (wakeSleeper_is_Some now (time_Add now d1) (time_Add now autodeleteWindow)
              (w_sleeping w ++ [(now, time_Add now autodeleteWindow)])%list) as [r Hr].
  { apply elem_of_app. right. apply list_elem_of_singleton. reflexivity. }
  { unfold time_Add, autodeleteWindow, time_Second. lia. }
  rewrite Hr. eexists. split; [reflexivity|]. simpl.
  unfold autodeleteTimeout_wake, autodeleteTimeout_begin. simpl.
  rewrite Z.eqb_refl. reflexivity.
Qed.

(** C7: on an auto-delete exchange, let [removeBinding] remove the last
  binding, the timeout goroutine it started record the clock reading [now]
  as the marker and go to sleep, [addBinding] append a binding less than
  five seconds after that (the marker becomes the epoch), and the timeout
  wake up once its five seconds are over.  With a clock that reads later
  than the epoch, the wake-up finds the marker changed and nothing is sent
  on [deleteChan]. *)
Theorem readd_within_window_sends_no_deletion (w : @World Table) (queue : Queue)
    (binding b0 : Binding) (method : QueueBind.t Table) (connId : Z) (fromDisk : bool)
    (d0 d1 d2 : Duration) :
  Exchange.autodelete (w_exchange w) = true
  → Exchange.bindings (w_exchange w) = [b0]
  → Equals binding b0 = true
  → time_Unix 0 0 < w_clock w
  → 0 ≤ d0 → 0 ≤ d1 → 0 ≤ d2
  → d1 < autodeleteWindow
  → autodeleteWindow ≤ d1 + d2
  → ∃ w' : @World Table,
      run w [EvRemoveBinding queue binding; EvTick d0; EvTimeoutBegin; EvTick d1;
             EvAddBinding method connId fromDisk; EvTick d2;
             EvTimeoutWake (time_Add (w_clock w) d0)] = Some w'
      ∧ w_deleteChan w' = w_deleteChan w
      ∧ Exchange.deleteActive (w_exchange w') = time_Unix 0 0
      ∧ Exchange.bindings (w_exchange w') =
          [NewBinding (QueueBind.Queue method) (QueueBind.Exchange method)
             (QueueBind.RoutingKey method) (QueueBind.Arguments method)].
Proof.
  intros Hauto Hb Heq Hclock Hd0 Hd1 Hd2 Hin Hout.
  unfold autodeleteWindow, time_Second in Hin, Hout. unfold time_Unix in Hclock.
  simpl. rewrite (removeBinding_last _ queue binding b0 Hauto Hb Heq).
  unfold after. simpl. rewrite (proj2 (Z.leb_le 0 d0) Hd0). simpl.
  destruct (w_started w ++ [GoAutodeleteTimeout])%list as [|[] rest] eqn:Hst.
  { destruct (w_started w); discriminate. }
  simpl. rewrite (proj2 (Z.leb_le 0 d1) Hd1). simpl.
  unfold addBinding. simpl. rewrite Hauto. simpl.
  rewrite (proj2 (Z.leb_le 0 d2) Hd2). simpl.
  set (now := time_Add (w_clock w) d0).
  destruct (wakeSleeper_is_Some now (time_Add (time_Add now d1) d2)
              (time_Add now autodeleteWindow)
              (w_sleeping w ++ [(now, time_Add now autodeleteWindow)])%list) as [r Hr].
  { apply elem_of_app. right. apply list_elem_of_singleton. reflexivity. }
  { unfold time_Add, autodeleteWindow, time_Second. lia. }
  rewrite Hr. eexists. split; [reflexivity|].
  split; [|split; reflexivity].
  cbn [w_deleteChan w_exchange]. rewrite autodeleteTimeout_wake_spec.
  destruct (decide _) as [Hmark|_]; [|apply app_nil_r].
  simpl in Hmark. unfold now, time_Add, time_Unix in Hmark. lia.
Qed.

End ExchangeProperties.

(** ** Frame dispatch *)

Lemma handleFrame_heartbeat (conn : AMQPConnection.t) (frame : WireFrame.t) (now : Time) :
  WireFrame.FrameType frame = 8
  → handleFrame conn frame now =
      AMQPConnection.set_ttl
        (time_Add now (AMQPConnection.receiveHeartbeatInterval conn * 2)) conn.
Proof. intros Htype. unfold handleFrame. rewrite Htype. reflexivity. Qed.

(** [handleFrame] never removes a channel from the table. *)
Lemma handleFrame_keeps_channels (conn : AMQPConnection.t) (frame : WireFrame.t)
    (now : Time) (id : Z) :
  is_Some (AMQPConnection.channels conn !! id)
  → is_Some (AMQPConnection.channels (handleFrame conn frame now) !! id).
Proof.
  intros Hsome. unfold handleFrame, cleanUp. simpl.
  destruct (WireFrame.FrameType frame =? 8); [exact Hsome|].
  destruct (_ && _); [exact Hsome|].
  destruct (AMQPConnection.channels conn !! WireFrame.Channel frame) eqn:Hc; simpl.
  - destruct (decide (WireFrame.Channel frame = id)) as [->|Hne].
    + rewrite lookup_insert_eq. eexists; reflexivity.
    + rewrite lookup_insert_ne by assumption. exact Hsome.
  - destruct (decide (WireFrame.Channel frame = id)) as [->|Hne].
    + rewrite lookup_insert_eq. eexists; reflexivity.
    + rewrite !lookup_insert_ne by assumption. exact Hsome.
Qed.

Lemma handleIncoming_keeps_channels (arrives : list (ReadFrameResult * Time))
    (conn : AMQPConnection.t) (id : Z) :
  is_Some (AMQPConnection.channels conn !! id)
  → is_Some (AMQPConnection.channels (handleIncoming conn arrives) !! id).
Proof.
  revert conn. induction arrives as [|[r now] rest IH]; intros conn Hsome; simpl.
  - exact Hsome.
  - destruct (ConnectStatus.closed _); [exact Hsome|].
    destruct (ReadFrame conn r) as [frame|msg]; [|exact Hsome].
    apply IH, handleFrame_keeps_channels, Hsome.
Qed.

(** C5 (amended): a frame that is not a heartbeat (type 8), has a nonzero
  channel id and arrives while [connectStatus.open] is false makes
  [handleFrame] hard-close the connection (after printing the violation),
  and the channel table stays as it was: no channel is created and no frame
  is sent to a channel.  A heartbeat frame only refreshes the TTL, whatever
  its channel id: the table is untouched and the network is not closed by
  the call. *)
Theorem handleFrame_unopened_nonzero_channel (conn : AMQPConnection.t)
    (frame : WireFrame.t) (now : Time) :
  ConnectStatus.open (AMQPConnection.connectStatus conn) = false
  → WireFrame.Channel frame ≠ 0
  → (WireFrame.FrameType frame ≠ 8
     → handleFrame conn frame now =
         hardClose
           (Println "Non-0 channel for unopened connection"
              (AMQPConnection.set_ttl
                 (time_Add now (AMQPConnection.receiveHeartbeatInterval conn * 2)) conn))
       ∧ AMQPConnection.net_closed (handleFrame conn frame now) = true
       ∧ AMQPConnection.channels (handleFrame conn frame now)
         = AMQPConnection.channels conn)
    ∧ (WireFrame.FrameType frame = 8
       → AMQPConnection.net_closed (handleFrame conn frame now)
         = AMQPConnection.net_closed conn
         ∧ AMQPConnection.channels (handleFrame conn frame now)
           = AMQPConnection.channels conn).
Proof.
  intros Hopen Hchan. split.
  - intros Htype. unfold handleFrame, cleanUp.
    apply Z.eqb_neq in Htype, Hchan. rewrite Htype. simpl.
    rewrite Hopen, Hchan. simpl. auto.
  - intros Htype. rewrite (handleFrame_heartbeat _ _ _ Htype). split; reflexivity.
Qed.

(** ** Protocol header *)

Lemma bytes_Compare_eq (a b : list byte) : bytes_Compare a b = 0 ↔ a = b.
Proof.
  revert b. induction a as [|x a IH]; intros [|y b]; simpl;
    try (split; [discriminate|discriminate]); [tauto|].
  destruct (N.compare_spec (Byte.to_N x) (Byte.to_N y)) as [Heq|Hlt|Hgt].
  - assert (x = y) as ->.
    { pose proof (Byte.of_to_N x) as Hx. rewrite Heq, Byte.of_to_N in Hx.
      congruence. }
    rewrite IH. split; [intros ->; reflexivity|intros [= ->]; reflexivity].
  - split; [discriminate|]. intros [= -> _]. lia.
  - split; [discriminate|]. intros [= -> _]. lia.
Qed.

Lemma network_Read_length (buf : list byte) (r : ReadResult) :
  length (network_Read buf r) = length buf.
Proof. unfold network_Read. rewrite length_app, length_take, length_drop. lia. Qed.

Lemma network_Read_full (buf : list byte) (data : list byte) (e : error) :
  length data = length buf → network_Read buf (mkRead data e) = data.
Proof.
  intros Hlen. unfold network_Read. simpl.
  rewrite <- Hlen, firstn_all, Hlen, drop_all. apply app_nil_r.
Qed.

(** C6: [openConnection] reads into a buffer of exactly 8 bytes, which an
  8-byte input fills.  For an 8-byte input other than the signature
  'A','M','Q','P',0,0,9,1 it writes the signature to the peer and closes
  the network: the channel table is as before (no channel 0 is created), no
  goroutine is started and no frame is handled.  For the signature it
  creates and starts channel 0, starts the writer and runs the read loop on
  what arrives, and channel 0 stays in the table. *)
Theorem openConnection_signature (conn : AMQPConnection.t) (data : list byte)
    (arrives : list (ReadFrameResult * Time)) :
  length data = 8%nat
  → network_Read (replicate 8 x00) (mkRead data None) = data
    ∧ (data ≠ supported
       → openConnection conn (mkRead data None) arrives
         = hardClose (network_Write supported conn)
         ∧ AMQPConnection.net_written (openConnection conn (mkRead data None) arrives)
           = (AMQPConnection.net_written conn ++ [supported])%list
         ∧ AMQPConnection.net_closed (openConnection conn (mkRead data None) arrives) = true
         ∧ AMQPConnection.channels (openConnection conn (mkRead data None) arrives)
           = AMQPConnection.channels conn
         ∧ AMQPConnection.goroutines (openConnection conn (mkRead data None) arrives)
           = AMQPConnection.goroutines conn)
    ∧ (data = supported
       → openConnection conn (mkRead data None) arrives
         = handleIncoming (handshakeStarted conn) arrives
         ∧ AMQPConnection.channels (handshakeStarted conn) !! 0
           = Some (Channel.mk 0 true [])
         ∧ AMQPConnection.goroutines (handshakeStarted conn)
           = (AMQPConnection.goroutines conn ++ [GoHandleOutgoing])%list
         ∧ AMQPConnection.net_written (handshakeStarted conn)
           = AMQPConnection.net_written conn
         ∧ is_Some (AMQPConnection.channels
                      (openConnection conn (mkRead data None) arrives) !! 0)).
Proof.
  intros Hlen.
  assert (network_Read (replicate 8 x00) (mkRead data None) = data) as Hread.
  { apply network_Read_full. rewrite Hlen. reflexivity. }
  split; [exact Hread|]. split.
  - intros Hne. unfold openConnection. rewrite Hread. simpl read_err. cbv iota.
    assert ((bytes_Compare data supported =? 0) = false) as ->.
    { apply Z.eqb_neq. rewrite bytes_Compare_eq. exact Hne. }
    simpl. auto.
  - intros ->.
    assert (openConnection conn (mkRead supported None) arrives
            = handleIncoming (handshakeStarted conn) arrives) as Hopen.
    { unfold openConnection, handshakeStarted. rewrite Hread. simpl.
      rewrite alter_insert_eq. reflexivity. }
    split; [exact Hopen|]. split; [apply lookup_insert_eq|].
    split; [reflexivity|]. split; [reflexivity|].
    rewrite Hopen. apply handleIncoming_keeps_channels.
    unfold handshakeStarted. simpl. rewrite lookup_insert_eq. eexists; reflexivity.
Qed.

(** * The theorems at sample values *)

(** A direct exchange with two bindings of "q-1" on key "x.y" (they differ
  in their arguments) and one of "q-2" on key "x.z". *)
Lemma queuesForPublish_direct_witness :
  Exchange.extype
    (sampleExchange EX_TYPE_DIRECT false
       [sampleBinding "q-1" "x.y" []; sampleBinding "q-1" "x.y" [("k", "v")];
        sampleBinding "q-2" "x.z" []]) = EX_TYPE_DIRECT
  ∧ ∃ queues : gmap string bool,
      queuesForPublish
        (sampleExchange EX_TYPE_DIRECT false
           [sampleBinding "q-1" "x.y" []; sampleBinding "q-1" "x.y" [("k", "v")];
            sampleBinding "q-2" "x.z" []])
        (samplePublish "x.y") = Ok queues
      ∧ (∀ q : string,
           is_Some (queues !! q)
           ↔ ∃ b, b ∈ [sampleBinding "q-1" "x.y" [];
                        sampleBinding "q-1" "x.y" [("k", "v")];
                        sampleBinding "q-2" "x.z" []]
                  ∧ Binding.queueName b = q
                  ∧ Binding.key b = "x.y")
      ∧ (∀ q : string,
           is_Some (queues !! q)
           → queues !! q = Some true
             ∧ occurrences q (map_to_list queues).*1 = 1%nat).
Proof.
  split; [reflexivity|].
  apply (queuesForPublish_direct
           (sampleExchange EX_TYPE_DIRECT false
              [sampleBinding "q-1" "x.y" []; sampleBinding "q-1" "x.y" [("k", "v")];
               sampleBinding "q-2" "x.z" []])
           (samplePublish "x.y")).
  reflexivity.
Defined.

Lemma bindings_never_equal_witness :
  noEqualBindings
    (sampleExchange EX_TYPE_TOPIC true
       [sampleBinding "q-1" "x.y" []; sampleBinding "q-2" "x.y" []])
  ∧ (∀ connId fromDisk connId' fromDisk',
       addBinding
         (Outcome.exchange
            (addBinding
               (sampleExchange EX_TYPE_TOPIC true
                  [sampleBinding "q-1" "x.y" []; sampleBinding "q-2" "x.y" []])
               (sampleBind "q-3" "x.*") connId fromDisk))
         (sampleBind "q-3" "x.*") connId' fromDisk'
       = Outcome.mk _
           (Outcome.exchange
              (addBinding
                 (sampleExchange EX_TYPE_TOPIC true
                    [sampleBinding "q-1" "x.y" []; sampleBinding "q-2" "x.y" []])
                 (sampleBind "q-3" "x.*") connId fromDisk))
           [] nil_error
       ∧ countEqual (sampleBinding "q-3" "x.*" [])
           (Exchange.bindings
              (Outcome.exchange
                 (addBinding
                    (Outcome.exchange
                       (addBinding
                          (sampleExchange EX_TYPE_TOPIC true
                             [sampleBinding "q-1" "x.y" []; sampleBinding "q-2" "x.y" []])
                          (sampleBind "q-3" "x.*") connId fromDisk))
                    (sampleBind "q-3" "x.*") connId' fromDisk'))) = 1%nat).
Proof.
  assert (noEqualBindings
            (sampleExchange EX_TYPE_TOPIC true
               [sampleBinding "q-1" "x.y" []; sampleBinding "q-2" "x.y" []])) as Hinv.
  { intros [|[|i]] [|[|j]] b1 b2 H1 H2 Heq; simpl in H1, H2;
      try reflexivity; try discriminate;
      injection H1 as <-; injection H2 as <-; vm_compute in Heq; discriminate. }
  split; [exact Hinv|].
  intros connId fromDisk connId' fromDisk'.
  exact (proj2 (proj2 (proj2 (proj2 (proj2 (proj2 (proj2
           (bindings_never_equal (Queue := string) _ Hinv)))))))
           (sampleBind "q-3" "x.*") connId fromDisk connId' fromDisk').
Defined.

(** The last binding is removed at [sampleClock], the timeout begins at
  once, the binding is added again one second later, and the timeout wakes
  after its five seconds. *)
Lemma readd_within_window_sends_no_deletion_witness :
  (Exchange.autodelete (sampleExchange EX_TYPE_DIRECT true [sampleBinding "q-1" "x.y" []]) = true
   ∧ Exchange.bindings (sampleExchange EX_TYPE_DIRECT true [sampleBinding "q-1" "x.y" []])
     = [sampleBinding "q-1" "x.y" []]
   ∧ Equals (sampleBinding "q-1" "x.y" []) (sampleBinding "q-1" "x.y" []) = true
   ∧ time_Unix 0 0 < sampleClock
   ∧ 0 ≤ 0 ∧ 0 ≤ time_Second ∧ 0 ≤ 4 * time_Second
   ∧ time_Second < autodeleteWindow
   ∧ autodeleteWindow ≤ time_Second + 4 * time_Second)
  ∧ ∃ w' : @World (list (string * string)),
      run (sampleWorld (sampleExchange EX_TYPE_DIRECT true [sampleBinding "q-1" "x.y" []]))
        [EvRemoveBinding "q-1" (sampleBinding "q-1" "x.y" []); EvTick 0;
         EvTimeoutBegin; EvTick time_Second;
         EvAddBinding (sampleBind "q-1" "x.y") 1 false; EvTick (4 * time_Second);
         EvTimeoutWake (time_Add sampleClock 0)] = Some w'
      ∧ w_deleteChan w' = []
      ∧ Exchange.deleteActive (w_exchange w') = time_Unix 0 0
      ∧ Exchange.bindings (w_exchange w') = [sampleBinding "q-1" "x.y" []].
Proof.
  split; [repeat split; vm_compute; congruence|].
  apply (readd_within_window_sends_no_deletion
           (sampleWorld (sampleExchange EX_TYPE_DIRECT true [sampleBinding "q-1" "x.y" []]))
           "q-1" (sampleBinding "q-1" "x.y" []) (sampleBinding "q-1" "x.y" [])
           (sampleBind "q-1" "x.y") 1 false 0 time_Second (4 * time_Second));
    vm_compute; congruence.
Defined.

(** A heartbeat frame on channel 5 before [open]: the network stays open. *)
Lemma handleFrame_heartbeat_counterexample :
  ConnectStatus.open (AMQPConnection.connectStatus (NewAMQPConnection 1)) = false
  ∧ WireFrame.Channel (WireFrame.mk 8 5 []) ≠ 0
  ∧ AMQPConnection.net_closed
      (handleFrame (NewAMQPConnection 1) (WireFrame.mk 8 5 []) sampleClock) = false.
Proof. split; [reflexivity|]. split; [discriminate|reflexivity]. Qed.

(** A method frame (type 1) on channel 5 before [open]. *)
Lemma handleFrame_unopened_nonzero_channel_witness :
  (ConnectStatus.open (AMQPConnection.connectStatus (NewAMQPConnection 1)) = false
   ∧ WireFrame.Channel (WireFrame.mk 1 5 []) ≠ 0)
  ∧ (WireFrame.FrameType (WireFrame.mk 1 5 []) ≠ 8
     → handleFrame (NewAMQPConnection 1) (WireFrame.mk 1 5 []) sampleClock =
         hardClose
           (Println "Non-0 channel for unopened connection"
              (AMQPConnection.set_ttl
                 (time_Add sampleClock
                    (AMQPConnection.receiveHeartbeatInterval (NewAMQPConnection 1) * 2))
                 (NewAMQPConnection 1)))
       ∧ AMQPConnection.net_closed
           (handleFrame (NewAMQPConnection 1) (WireFrame.mk 1 5 []) sampleClock) = true
       ∧ AMQPConnection.channels
           (handleFrame (NewAMQPConnection 1) (WireFrame.mk 1 5 []) sampleClock)
         = AMQPConnection.channels (NewAMQPConnection 1))
    ∧ (WireFrame.FrameType (WireFrame.mk 1 5 []) = 8
       → AMQPConnection.net_closed
           (handleFrame (NewAMQPConnection 1) (WireFrame.mk 1 5 []) sampleClock)
         = AMQPConnection.net_closed (NewAMQPConnection 1)
         ∧ AMQPConnection.channels
             (handleFrame (NewAMQPConnection 1) (WireFrame.mk 1 5 []) sampleClock)
           = AMQPConnection.channels (NewAMQPConnection 1)).
Proof.
  split; [split; [reflexivity|discriminate]|].
  apply (handleFrame_unopened_nonzero_channel (NewAMQPConnection 1)
           (WireFrame.mk 1 5 []) sampleClock); [reflexivity|discriminate].
Defined.

(** The header of protocol revision 0-8, 'A','M','Q','P',1,1,8,0, is
  answered with the supported signature and a closed network. *)
Lemma openConnection_signature_witness :
  length [x41; x4d; x51; x50; x01; x01; x08; x00] = 8%nat
  ∧ openConnection (NewAMQPConnection 1)
      (mkRead [x41; x4d; x51; x50; x01; x01; x08; x00] None)
      [(GotFrame (WireFrame.mk 1 0 []), sampleClock)]
    = hardClose (network_Write supported (NewAMQPConnection 1)).
Proof.
  split; [reflexivity|].
  apply (openConnection_signature (NewAMQPConnection 1)
           [x41; x4d; x51; x50; x01; x01; x08; x00]
           [(GotFrame (WireFrame.mk 1 0 []), sampleClock)]);
    [reflexivity|discriminate].
Defined.

(** ** The scenarios of the server test, run *)

Example splitWords_abc : splitWords "a.b.c" = ["a"; "b"; "c"].
Proof. reflexivity. Qed.

Example splitWords_empty_words : splitWords ".a.." = [""; "a"; ""; ""].
Proof. reflexivity. Qed.

Example topic_bound_key_routes :
  queuesForPublish (sampleExchange EX_TYPE_TOPIC false [sampleBinding "q-1" "x.y" []])
    (samplePublish "x.y") = Ok {["q-1" := true]}.
Proof. reflexivity. Qed.

Example topic_other_key_routes_nowhere :
  queuesForPublish (sampleExchange EX_TYPE_TOPIC false [sampleBinding "q-1" "x.y" []])
    (samplePublish "x.z") = Ok ∅.
Proof. reflexivity. Qed.

Example exchangeNameToType_unknown :
  exchangeNameToType "x-custom" = (0, Some "Unknown exchang type 'x-custom', 8 6").
Proof. reflexivity. Qed.

Example exchangeTypeToName_unknown :
  exchangeTypeToName 7 = Panic "bad exchange type: 7".
Proof. reflexivity. Qed.

Example headers_exchange_panics :
  queuesForPublish (sampleExchange EX_TYPE_HEADERS false []) (samplePublish "x.y")
  = Panic "Headers is not implemented!".
Proof. reflexivity. Qed.

Example handshake_then_early_channel_5 :
  let conn :=
    openConnection (NewAMQPConnection 1) (mkRead supported None)
      [(GotFrame (WireFrame.mk 1 0 []), sampleClock);
       (GotFrame (WireFrame.mk 1 5 []), sampleClock)] in
  AMQPConnection.net_closed conn = true
  ∧ AMQPConnection.channels conn
    = {[0 := Channel.mk 0 true [WireFrame.mk 1 0 []]]}.
Proof. split; reflexivity. Qed.

(** * Further properties of the exchange *)

Section ExchangeFurther.
Context {Table : Type} `{EqDecision Table}.
Context {Queue : Type}.

Local Abbreviation Binding := (Binding.t Table).
Local Abbreviation Exchange := (Exchange.t Table).
Local Abbreviation Outcome := (Outcome.t Table).

(** X1: the two conversions between type names and type codes are inverse
  to each other: a code has the name [n] exactly when [n] converts to that
  code without an error.  So the four names "direct", "fanout", "topic",
  "headers" and the codes 1 to 4 correspond, every other name converts with
  an error and every other code makes [exchangeTypeToName] panic. *)
Theorem exchange_type_name_roundtrip (et : extype) (n : string) :
  exchangeTypeToName et = Ok n ↔ exchangeNameToType n = (et, nil_error).
Proof.
  unfold exchangeTypeToName, exchangeNameToType, nil_error,
    EX_TYPE_DIRECT, EX_TYPE_FANOUT, EX_TYPE_TOPIC, EX_TYPE_HEADERS.
  split.
  - destruct (Z.eqb_spec et 1) as [->|_]; [intros [= <-]; reflexivity|].
    destruct (Z.eqb_spec et 2) as [->|_]; [intros [= <-]; reflexivity|].
    destruct (Z.eqb_spec et 3) as [->|_]; [intros [= <-]; reflexivity|].
    destruct (Z.eqb_spec et 4) as [->|_]; [intros [= <-]; reflexivity|].
    discriminate.
  - destruct (String.eqb_spec n "direct") as [->|_]; [intros [= <-]; reflexivity|].
    destruct (String.eqb_spec n "fanout") as [->|_]; [intros [= <-]; reflexivity|].
    destruct (String.eqb_spec n "topic") as [->|_]; [intros [= <-]; reflexivity|].
    destruct (String.eqb_spec n "headers") as [->|_]; [intros [= <-]; reflexivity|].
    discriminate.
Qed.

(** X2: [queuesForPublish] returns a map exactly for the types direct,
  fanout and topic; on a headers exchange it panics with "Headers is not
  implemented!" and on any other type code with "unknown exchange type!",
  whatever the bindings and the message. *)
Theorem queuesForPublish_panics (exchange : Exchange) (msg : Message.t) :
  ((∃ queues, queuesForPublish exchange msg = Ok queues)
   ↔ Exchange.extype exchange = EX_TYPE_DIRECT
     ∨ Exchange.extype exchange = EX_TYPE_FANOUT
     ∨ Exchange.extype exchange = EX_TYPE_TOPIC)
  ∧ (Exchange.extype exchange = EX_TYPE_HEADERS
     → queuesForPublish exchange msg = Panic "Headers is not implemented!")
  ∧ (Exchange.extype exchange ≠ EX_TYPE_DIRECT
     → Exchange.extype exchange ≠ EX_TYPE_FANOUT
     → Exchange.extype exchange ≠ EX_TYPE_TOPIC
     → Exchange.extype exchange ≠ EX_TYPE_HEADERS
     → queuesForPublish exchange msg = Panic "unknown exchange type!").
Proof.
  unfold queuesForPublish.
  destruct (Z.eqb_spec (Exchange.extype exchange) EX_TYPE_DIRECT) as [Hd|Hd].
  { split; [split; [auto|eexists; reflexivity]|]. rewrite Hd.
    split; [discriminate|congruence]. }
  destruct (Z.eqb_spec (Exchange.extype exchange) EX_TYPE_FANOUT) as [Hf|Hf].
  { split; [split; [auto|eexists; reflexivity]|]. rewrite Hf.
    split; [discriminate|congruence]. }
  destruct (Z.eqb_spec (Exchange.extype exchange) EX_TYPE_TOPIC) as [Ht|Ht].
  { split; [split; [auto|eexists; reflexivity]|]. rewrite Ht.
    split; [discriminate|congruence]. }
  destruct (Z.eqb_spec (Exchange.extype exchange) EX_TYPE_HEADERS) as [Hh|Hh].
  - split; [|split; [reflexivity|congruence]].
    split; [intros [queues Hq]; discriminate|tauto].
  - split; [|split; [congruence|reflexivity]].
    split; [intros [queues Hq]; discriminate|tauto].
Qed.

Lemma rangeBindings_size (matches : Binding → bool) (bindings : list Binding)
    (queues : gmap string bool) :
  (size (rangeBindings matches bindings queues) ≤ size queues + length bindings)%nat.
Proof.
  revert queues. induction bindings as [|b rest IH]; intros queues; simpl; [lia|].
  destruct (matches b).
  - destruct (queues !! Binding.queueName b) eqn:Hq.
    + specialize (IH queues). lia.
    + specialize (IH (<[Binding.queueName b := true]> queues)).
      rewrite (map_size_insert_None _ _ _ Hq) in IH. lia.
  - specialize (IH queues). lia.
Qed.

(** X3: on a fanout exchange the returned map has exactly the queue names
  of the bindings [matchFanout] accepts, on a topic exchange exactly those
  of the bindings [matchTopic] accepts; no key maps to [false], and the map
  has at most as many keys as there are bindings. *)
Theorem queuesForPublish_fanout_topic (exchange : Exchange) (msg : Message.t) :
  Exchange.extype exchange = EX_TYPE_FANOUT ∨ Exchange.extype exchange = EX_TYPE_TOPIC
  → ∃ queues : gmap string bool,
      queuesForPublish exchange msg = Ok queues
      ∧ (∀ q, queues !! q = Some true
              ↔ ∃ b, b ∈ Exchange.bindings exchange ∧ Binding.queueName b = q
                     ∧ (if Z.eqb (Exchange.extype exchange) EX_TYPE_FANOUT
                        then matchFanout b (Message.Method msg)
                        else matchTopic b (Message.Method msg)) = true)
      ∧ (∀ q, queues !! q ≠ Some false)
      ∧ (size queues ≤ length (Exchange.bindings exchange))%nat.
Proof.
  unfold queuesForPublish. intros [-> | ->]; simpl; eexists;
    (split; [reflexivity|]); split.
  - intros q. apply (rangeBindings_empty_lookup
                       (λ b, matchFanout b (Message.Method msg))).
  - split.
    + intros q Hq.
      pose proof (rangeBindings_empty_is_Some _ _ q (ex_intro _ _ Hq)). congruence.
    + pose proof (rangeBindings_size (λ b, matchFanout b (Message.Method msg))
                    (Exchange.bindings exchange) ∅) as Hs.
      rewrite map_size_empty in Hs. exact Hs.
  - intros q. apply (rangeBindings_empty_lookup
                       (λ b, matchTopic b (Message.Method msg))).
  - split.
    + intros q Hq.
      pose proof (rangeBindings_empty_is_Some _ _ q (ex_intro _ _ Hq)). congruence.
    + pose proof (rangeBindings_size (λ b, matchTopic b (Message.Method msg))
                    (Exchange.bindings exchange) ∅) as Hs.
      rewrite map_size_empty in Hs. exact Hs.
Qed.

Lemma existsb_same_elements {A : Type} (f : A → bool) (l1 l2 : list A) :
  (∀ x, x ∈ l1 ↔ x ∈ l2) → existsb f l1 = existsb f l2.
Proof.
  intros Hsame. apply eq_true_iff_eq. rewrite !existsb_exists.
  split; intros (x & Hin & Hf); exists x; (split; [|exact Hf]);
    apply list_elem_of_In, Hsame, list_elem_of_In, Hin.
Qed.

Lemma rangeBindings_same_elements (matches : Binding → bool) (l1 l2 : list Binding) :
  (∀ b, b ∈ l1 ↔ b ∈ l2) → rangeBindings matches l1 ∅ = rangeBindings matches l2 ∅.
Proof.
  intros Hsame. apply map_eq. intros q.
  rewrite !rangeBindings_lookup, !lookup_empty.
  rewrite (existsb_same_elements _ l1 l2 Hsame). reflexivity.
Qed.

(** X4: routing depends only on which bindings are stored, not on their
  order or on repetitions: two exchanges of the same type whose collections
  have the same members give the same result for every message. *)
Theorem queuesForPublish_same_members (ex1 ex2 : Exchange) (msg : Message.t) :
  Exchange.extype ex1 = Exchange.extype ex2
  → (∀ b, b ∈ Exchange.bindings ex1 ↔ b ∈ Exchange.bindings ex2)
  → queuesForPublish ex1 msg = queuesForPublish ex2 msg.
Proof.
  intros Htype Hsame. unfold queuesForPublish. rewrite Htype.
  rewrite !(rangeBindings_same_elements _ _ _ Hsame). reflexivity.
Qed.

(** X5: [removeBindingsForQueue] and [bindingsForQueue] split the
  collection: after the removal the queue has no bindings left, every other
  queue has the bindings it had, in the same order; the bindings removed
  and the bindings kept add up to the collection; and removing again changes
  nothing. *)
Theorem removeBindingsForQueue_splits (exchange : Exchange) (queueName : string) :
  let kept := Outcome.exchange (removeBindingsForQueue exchange queueName) in
  bindingsForQueue kept queueName = []
  ∧ (∀ other, other ≠ queueName
              → bindingsForQueue kept other = bindingsForQueue exchange other)
  ∧ (length (bindingsForQueue exchange queueName) + length (Exchange.bindings kept)
     = length (Exchange.bindings exchange))%nat
  ∧ Exchange.bindings kept `sublist_of` Exchange.bindings exchange
  ∧ removeBindingsForQueue kept queueName = removeBindingsForQueue exchange queueName.
Proof.
  unfold removeBindingsForQueue, bindingsForQueue. simpl.
  assert (∀ l : list Binding,
            List.filter (λ b, String.eqb (Binding.queueName b) queueName)
              (List.filter (λ b, negb (String.eqb (Binding.queueName b) queueName)) l)
            = []) as Hnone.
  { induction l as [|b l IH]; [reflexivity|]. simpl.
    destruct (String.eqb (Binding.queueName b) queueName) eqn:Hb; simpl; [exact IH|].
    rewrite Hb. exact IH. }
  assert (∀ l : list Binding,
            List.filter (λ b, negb (String.eqb (Binding.queueName b) queueName))
              (List.filter (λ b, negb (String.eqb (Binding.queueName b) queueName)) l)
            = List.filter (λ b, negb (String.eqb (Binding.queueName b) queueName)) l)
    as Hidem.
  { induction l as [|b l IH]; [reflexivity|]. simpl.
    destruct (String.eqb (Binding.queueName b) queueName) eqn:Hb; simpl; [exact IH|].
    rewrite Hb. simpl. f_equal. exact IH. }
  split; [apply Hnone|]. split.
  { intros other Hother.
    induction (Exchange.bindings exchange) as [|b l IH]; [reflexivity|]. simpl.
    destruct (String.eqb_spec (Binding.queueName b) queueName) as [Hb|Hb]; simpl.
    - rewrite IH. destruct (String.eqb_spec (Binding.queueName b) other); [congruence|].
      reflexivity.
    - destruct (String.eqb (Binding.queueName b) other); [f_equal|]; exact IH. }
  split.
  { induction (Exchange.bindings exchange) as [|b l IH]; [reflexivity|]. simpl.
    destruct (String.eqb (Binding.queueName b) queueName); simpl; lia. }
  split.
  { induction (Exchange.bindings exchange) as [|b l IH]; [constructor|]. simpl.
    destruct (String.eqb (Binding.queueName b) queueName); simpl;
      [apply sublist_cons|apply sublist_skip]; exact IH. }
  f_equal. unfold Exchange.set_bindings. simpl. f_equal. apply Hidem.
Qed.

(** X6: once the bindings of a queue are removed, no publish is routed to
  that queue, whatever the exchange type and the message. *)
Theorem removeBindingsForQueue_unroutes (exchange : Exchange) (queueName : string)
    (msg : Message.t) (queues : gmap string bool) :
  queuesForPublish (Outcome.exchange (removeBindingsForQueue exchange queueName)) msg
    = Ok queues
  → queues !! queueName = None.
Proof.
  assert (∀ matches : Binding → bool,
            rangeBindings matches
              (List.filter (λ b, negb (String.eqb (Binding.queueName b) queueName))
                 (Exchange.bindings exchange)) ∅ !! queueName = None) as Hnone.
  { intros matches. rewrite rangeBindings_lookup, lookup_empty.
    destruct (existsb _ _) eqn:Hex; [|reflexivity]. exfalso.
    apply existsb_exists in Hex as (b & Hin & Hb).
    apply List.filter_In in Hin as [_ Hkeep].
    apply andb_true_iff in Hb as [_ Hq]. apply bool_decide_eq_true in Hq.
    rewrite Hq, String.eqb_refl in Hkeep. discriminate. }
  unfold queuesForPublish, removeBindingsForQueue. simpl.
  destruct (Exchange.extype exchange =? EX_TYPE_DIRECT); [intros [= <-]; apply Hnone|].
  destruct (Exchange.extype exchange =? EX_TYPE_FANOUT); [intros [= <-]; apply Hnone|].
  destruct (Exchange.extype exchange =? EX_TYPE_TOPIC); [intros [= <-]; apply Hnone|].
  destruct (Exchange.extype exchange =? EX_TYPE_HEADERS); discriminate.
Qed.

Lemma firstEqual_lookup (binding : Binding) (bindings : list Binding) (i : nat) :
  firstEqual binding bindings 0 = Some i → bindings !! i = Some binding.
Proof. intros Hf. apply firstEqual_Some in Hf as (k & -> & Hk). exact Hk. Qed.

Lemma delete_NoDup_notin {A : Type} (l : list A) (i : nat) (x : A) :
  NoDup l → l !! i = Some x → x ∉ delete i l.
Proof.
  intros Hnd Hi Hin. apply list_elem_of_lookup in Hin as [j Hj].
  rewrite NoDup_alt in Hnd. destruct (decide (j < i)%nat) as [Hlt|Hge].
  - rewrite list_lookup_delete_lt in Hj by assumption.
    specialize (Hnd _ _ _ Hi Hj). lia.
  - rewrite list_lookup_delete_ge in Hj by lia.
    specialize (Hnd _ _ _ Hi Hj). lia.
Qed.

Lemma delete_other_member {A : Type} (l : list A) (i : nat) (x y : A) :
  l !! i = Some x → y ≠ x → (y ∈ delete i l ↔ y ∈ l).
Proof.
  intros Hi Hne. split.
  - intros Hin. eapply elem_of_sublist; [exact Hin|apply sublist_delete].
  - intros Hin. rewrite delete_take_drop.
    rewrite <- (take_drop_middle l i x Hi) in Hin.
    apply elem_of_app in Hin as [Hin|Hin]; [apply elem_of_app; left; exact Hin|].
    apply elem_of_cons in Hin as [Hin|Hin]; [congruence|].
    apply elem_of_app. right. exact Hin.
Qed.

(** X7: [removeBinding] takes out one stored binding at most, the first one
  that [Equals] the given binding, and keeps the others in their order: with
  an equal binding stored the collection is one shorter, without one it is
  unchanged, and bindings that differ from the given one are members after
  the call exactly when they were before.  On an exchange without equal
  bindings, no stored binding equals the given one afterwards. *)
Theorem removeBinding_removes_one (exchange : Exchange) (queue : Queue)
    (binding : Binding) :
  let rest := Exchange.bindings (Outcome.exchange (removeBinding exchange queue binding)) in
  rest `sublist_of` Exchange.bindings exchange
  ∧ ((∃ b, b ∈ Exchange.bindings exchange ∧ Equals binding b = true)
     → S (length rest) = length (Exchange.bindings exchange))
  ∧ ((∀ b, b ∈ Exchange.bindings exchange → Equals binding b = false)
     → rest = Exchange.bindings exchange)
  ∧ (∀ b, Equals binding b = false → (b ∈ rest ↔ b ∈ Exchange.bindings exchange))
  ∧ (noEqualBindings exchange → ∀ b, b ∈ rest → Equals binding b = false).
Proof.
  simpl. rewrite removeBinding_bindings.
  destruct (firstEqual binding (Exchange.bindings exchange) 0) as [i|] eqn:Hf.
  - pose proof (firstEqual_lookup _ _ _ Hf) as Hi.
    split; [apply sublist_delete|]. split.
    { intros _. rewrite length_delete by (eexists; exact Hi).
      apply lookup_lt_Some in Hi. lia. }
    split.
    { intros Hnone. exfalso. apply list_elem_of_lookup_2 in Hi.
      specialize (Hnone _ Hi). rewrite Equals_refl in Hnone. discriminate. }
    split.
    { intros b Hb. apply (delete_other_member _ _ _ _ Hi).
      intros ->. rewrite Equals_refl in Hb. discriminate. }
    intros Hinv b Hb. apply not_true_is_false. intros Heq.
    apply Equals_eq in Heq as <-.
    apply noEqualBindings_NoDup in Hinv.
    exact (delete_NoDup_notin _ _ _ Hinv Hi Hb).
  - apply firstEqual_None in Hf. split; [reflexivity|]. split.
    { intros (b & Hin & Heq). apply Equals_eq in Heq as <-. contradiction. }
    split; [reflexivity|]. split; [reflexivity|].
    intros _ b Hb. apply not_true_is_false. intros Heq.
    apply Equals_eq in Heq as <-. contradiction.
Qed.

Lemma firstEqual_app_notin (binding : Binding) (l1 l2 : list Binding) (i : nat) :
  binding ∉ l1
  → firstEqual binding (l1 ++ l2) i = firstEqual binding l2 (i + length l1).
Proof.
  revert i. induction l1 as [|b l1 IH]; intros i Hnot; simpl.
  - f_equal. lia.
  - apply not_elem_of_cons in Hnot as [Hne Hnot].
    destruct (Equals binding b) eqn:Heq; [apply Equals_eq in Heq; congruence|].
    rewrite IH by assumption. f_equal. lia.
Qed.

(** X8: binding and unbinding undo each other: when no stored binding
  equals the tuple, [addBinding] followed by [removeBinding] of the same
  tuple gives back the collection as it was, and the removal starts the
  auto-delete timeout exactly when the exchange is auto-delete and had no
  bindings. *)
Theorem removeBinding_undoes_addBinding (exchange : Exchange)
    (method : QueueBind.t Table) (connId : Z) (fromDisk : bool) (queue : Queue) :
  let binding := NewBinding (QueueBind.Queue method) (QueueBind.Exchange method)
                   (QueueBind.RoutingKey method) (QueueBind.Arguments method) in
  let bound := Outcome.exchange (addBinding exchange method connId fromDisk) in
  (∀ b, b ∈ Exchange.bindings exchange → Equals binding b = false)
  → Exchange.bindings (Outcome.exchange (removeBinding bound queue binding))
    = Exchange.bindings exchange
    ∧ Outcome.started (removeBinding bound queue binding)
      = (if Exchange.autodelete exchange
            && Nat.eqb (length (Exchange.bindings exchange)) 0
         then [GoAutodeleteTimeout] else []).
Proof.
  simpl. intros Hnone.
  set (binding := NewBinding (QueueBind.Queue method) (QueueBind.Exchange method)
                    (QueueBind.RoutingKey method) (QueueBind.Arguments method)).
  assert (binding ∉ Exchange.bindings exchange) as Hnot.
  { intros Hin. specialize (Hnone _ Hin). rewrite Equals_refl in Hnone. discriminate. }
  assert (existsb (λ b, Equals binding b) (Exchange.bindings exchange) = false) as Hex.
  { apply not_true_is_false. rewrite existsb_Equals. exact Hnot. }
  assert (firstEqual binding (Exchange.bindings exchange ++ [binding]) 0
          = Some (length (Exchange.bindings exchange))) as Hfirst.
  { rewrite firstEqual_app_notin by assumption. simpl.
    rewrite Equals_refl. reflexivity. }
  set (bound := Outcome.exchange (addBinding exchange method connId fromDisk)).
  assert (Exchange.bindings bound = (Exchange.bindings exchange ++ [binding])%list) as Hb.
  { unfold bound. rewrite addBinding_bindings. fold binding. rewrite Hex. reflexivity. }
  assert (Exchange.autodelete bound = Exchange.autodelete exchange) as Ha.
  { unfold bound, addBinding. fold binding. rewrite Hex.
    destruct (Exchange.autodelete exchange) eqn:Hauto; simpl; rewrite ?Hauto; reflexivity. }
  assert (delete (length (Exchange.bindings exchange))
            (Exchange.bindings exchange ++ [binding])%list
          = Exchange.bindings exchange) as Hdel.
  { rewrite delete_middle. apply app_nil_r. }
  split.
  - rewrite removeBinding_bindings, Hb, Hfirst. exact Hdel.
  - unfold removeBinding. rewrite Hb, Hfirst. cbn [Exchange.autodelete Exchange.bindings
      Exchange.set_bindings]. rewrite <- delete_take_drop, Hdel, Ha.
    destruct (Exchange.autodelete exchange && _); reflexivity.
Qed.

(** ** Runs of the auto-delete timeout *)

Lemma run_app (evs1 evs2 : list (@Event Table Queue)) (w : @World Table) :
  run w (evs1 ++ evs2) =
    match run w evs1 with
    | Some w1 => run w1 evs2
    | None => None
    end.
Proof.
  revert w. induction evs1 as [|ev evs1 IH]; intros w; simpl; [reflexivity|].
  destruct (step w ev); [apply IH|reflexivity].
Qed.

Lemma set_bindings_same (exchange : Exchange) :
  Exchange.set_bindings (Exchange.bindings exchange) exchange = exchange.
Proof. destruct exchange. reflexivity. Qed.

(** On an exchange without bindings, removals do nothing and time passes. *)
Lemma run_quiet_empty (evs : list (@Event Table Queue)) (w : @World Table) :
  Exchange.bindings (w_exchange w) = []
  → forallb isQuiet evs = true
  → run w evs =
      Some (mkWorld (w_exchange w) (time_Add (w_clock w) (elapsed evs)) (w_started w)
              (w_sleeping w) (w_deleteChan w)).
Proof.
  revert w. induction evs as [|ev evs IH]; intros w Hempty Hquiet.
  - simpl. unfold time_Add. rewrite Z.add_0_r. destruct w; reflexivity.
  - simpl in Hquiet. apply andb_true_iff in Hquiet as [Hev Hquiet].
    destruct ev as [method connId fromDisk|queue binding|queueName| |now|d];
      try discriminate; simpl.
    + unfold removeBinding. rewrite Hempty. simpl. unfold after. simpl.
      rewrite app_nil_r. rewrite IH by (simpl; assumption). reflexivity.
    + unfold removeBindingsForQueue. rewrite Hempty. simpl. unfold after. simpl.
      rewrite app_nil_r, <- Hempty, set_bindings_same.
      rewrite IH by (simpl; assumption). reflexivity.
    + simpl in Hev. rewrite Hev. rewrite IH by (simpl; assumption). simpl.
      unfold time_Add. do 2 f_equal. lia.
Qed.

(** X9: auto-delete fires after a quiet window.  On an auto-delete
  exchange, once [removeBinding] has removed the last binding and the
  timeout goroutine has recorded its [now], any run of removals and passing
  time that lasts at least five seconds lets the timeout wake up and send
  the exchange, without bindings and with the marker still [now], on
  [deleteChan]. *)
Theorem autodelete_fires_after_quiet_window (w : @World Table) (queue : Queue)
    (binding b0 : Binding) (d0 : Duration) (quiet : list (@Event Table Queue)) :
  Exchange.autodelete (w_exchange w) = true
  → Exchange.bindings (w_exchange w) = [b0]
  → Equals binding b0 = true
  → 0 ≤ d0
  → forallb isQuiet quiet = true
  → autodeleteWindow ≤ elapsed quiet
  → ∃ w' : @World Table,
      run w ([EvRemoveBinding queue binding; EvTick d0; EvTimeoutBegin]
             ++ quiet ++ [EvTimeoutWake (time_Add (w_clock w) d0)]) = Some w'
      ∧ w_deleteChan w' =
          (w_deleteChan w
           ++ [Exchange.set_deleteActive (time_Add (w_clock w) d0)
                 (Exchange.set_bindings [] (w_exchange w))])%list
      ∧ w_exchange w' =
          Exchange.set_deleteActive (time_Add (w_clock w) d0)
            (Exchange.set_bindings [] (w_exchange w)).
Proof.
  intros Hauto Hb Heq Hd0 Hquiet Hwin.
  rewrite run_app. simpl.
  rewrite (removeBinding_last _ queue binding b0 Hauto Hb Heq).
  unfold after. simpl. rewrite (proj2 (Z.leb_le 0 d0) Hd0). simpl.
  destruct (w_started w ++ [GoAutodeleteTimeout])%list as [|[] rest] eqn:Hst.
  { destruct (w_started w); discriminate. }
  rewrite run_app, run_quiet_empty by (reflexivity || assumption). simpl.
  set (now := time_Add (w_clock w) d0).
  destruct (wakeSleeper_is_Some now (time_Add now (elapsed quiet))
              (time_Add now autodeleteWindow)
              (w_sleeping w ++ [(now, time_Add now autodeleteWindow)])%list) as [r Hr].
  { apply elem_of_app. right. apply list_elem_of_singleton. reflexivity. }
  { unfold time_Add. lia. }
  rewrite Hr. eexists. split; [reflexivity|]. split; [|reflexivity].
  cbn [w_deleteChan w_exchange]. rewrite autodeleteTimeout_wake_spec.
  rewrite decide_True by reflexivity. reflexivity.
Qed.

(** X10: a binding added too early does not cancel the timeout.  When the
  new binding is added after [removeBinding] has returned but before the
  timeout goroutine records its [now], the goroutine overwrites the epoch
  marker, nothing changes the marker during the sleep, and the exchange is
  sent on [deleteChan] although it has a binding. *)
Theorem autodelete_fires_despite_early_addBinding (w : @World Table) (queue : Queue)
    (binding b0 : Binding) (method : QueueBind.t Table) (connId : Z) (fromDisk : bool)
    (d0 d1 : Duration) :
  Exchange.autodelete (w_exchange w) = true
  → Exchange.bindings (w_exchange w) = [b0]
  → Equals binding b0 = true
  → 0 ≤ d0
  → autodeleteWindow ≤ d1
  → ∃ w' : @World Table,
      run w [EvRemoveBinding queue binding; EvAddBinding method connId fromDisk;
             EvTick d0; EvTimeoutBegin; EvTick d1;
             EvTimeoutWake (time_Add (w_clock w) d0)] = Some w'
      ∧ w_deleteChan w' = (w_deleteChan w ++ [w_exchange w'])%list
      ∧ Exchange.bindings (w_exchange w') =
          [NewBinding (QueueBind.Queue method) (QueueBind.Exchange method)
             (QueueBind.RoutingKey method) (QueueBind.Arguments method)]
      ∧ Exchange.deleteActive (w_exchange w') = time_Add (w_clock w) d0.
Proof.
  intros Hauto Hb Heq Hd0 Hd1. unfold autodeleteWindow, time_Second in Hd1.
  simpl. rewrite (removeBinding_last _ queue binding b0 Hauto Hb Heq).
  unfold after. simpl. unfold addBinding. simpl. rewrite Hauto. simpl.
  rewrite (proj2 (Z.leb_le 0 d0) Hd0). simpl.
  destruct ((w_started w ++ [GoAutodeleteTimeout]) ++ [])%list as [|[] rest] eqn:Hst.
  { destruct (w_started w); discriminate. }
  simpl. rewrite (proj2 (Z.leb_le 0 d1)) by lia. simpl.
  set (now := time_Add (w_clock w) d0).
  destruct (wakeSleeper_is_Some now (time_Add now d1) (time_Add now autodeleteWindow)
              (w_sleeping w ++ [(now, time_Add now autodeleteWindow)])%list) as [r Hr].
  { apply elem_of_app. right. apply list_elem_of_singleton. reflexivity. }
  { unfold time_Add, autodeleteWindow, time_Second. lia. }
  rewrite Hr. eexists. split; [reflexivity|].
  split; [|split; reflexivity].
  cbn [w_deleteChan w_exchange]. rewrite autodeleteTimeout_wake_spec.
  rewrite decide_True by reflexivity. reflexivity.
Qed.

Lemma step_not_autodelete (w w' : @World Table) (ev : @Event Table Queue) :
  Exchange.autodelete (w_exchange w) = false
  → w_started w = [] → w_sleeping w = []
  → step w ev = Some w'
  → Exchange.autodelete (w_exchange w') = false
    ∧ w_started w' = [] ∧ w_sleeping w' = []
    ∧ w_deleteChan w' = w_deleteChan w
    ∧ Exchange.deleteActive (w_exchange w') = Exchange.deleteActive (w_exchange w).
Proof.
  intros Hauto Hst Hsl.
  destruct ev as [method connId fromDisk|queue binding|queueName| |now|d]; simpl.
  - intros [= <-]. unfold after, addBinding. rewrite Hst, Hsl.
    destruct (existsb _ _); simpl; rewrite ?Hauto; simpl; rewrite ?Hauto; auto.
  - intros [= <-]. unfold after, removeBinding. rewrite Hst, Hsl.
    destruct (firstEqual _ _ _); simpl; rewrite ?Hauto; simpl; rewrite ?Hauto; auto.
  - intros [= <-]. unfold after. simpl. rewrite Hst, Hsl. auto.
  - rewrite Hst. discriminate.
  - rewrite Hsl. discriminate.
  - destruct (Z.leb 0 d); [|discriminate]. intros [= <-]. simpl. auto.
Qed.

(** X11: an exchange that is not auto-delete never asks to be deleted: from
  a world without timeout goroutines, no run of events starts one, sends
  anything on [deleteChan] or changes the [deleteActive] marker. *)
Theorem not_autodelete_never_signals (evs : list (@Event Table Queue))
    (w w' : @World Table) :
  Exchange.autodelete (w_exchange w) = false
  → w_started w = [] → w_sleeping w = []
  → run w evs = Some w'
  → w_deleteChan w' = w_deleteChan w
    ∧ w_started w' = [] ∧ w_sleeping w' = []
    ∧ Exchange.deleteActive (w_exchange w') = Exchange.deleteActive (w_exchange w).
Proof.
  revert w. induction evs as [|ev evs IH]; intros w Hauto Hst Hsl; simpl.
  - intros [= <-]. auto.
  - destruct (step w ev) as [w1|] eqn:Hstep; [|discriminate]. intros Hrun.
    destruct (step_not_autodelete w w1 ev Hauto Hst Hsl Hstep)
      as (Hauto1 & Hst1 & Hsl1 & Hdc & Hda).
    destruct (IH w1 Hauto1 Hst1 Hsl1 Hrun) as (Hdc' & Hst' & Hsl' & Hda').
    rewrite Hdc', Hda', Hdc, Hda. auto.
Qed.

(** ** Binding and routing together *)

(** The predicate the loop of [queuesForPublish] uses for a type code. *)
Lemma queuesForPublish_Ok (exchange : Exchange) (msg : Message.t)
    (queues : gmap string bool) :
  queuesForPublish exchange msg = Ok queues
  → ∃ matches : Binding → bool,
      queues = rangeBindings matches (Exchange.bindings exchange) ∅
      ∧ ∀ b, matches b =
               if Z.eqb (Exchange.extype exchange) EX_TYPE_DIRECT
               then matchDirect b (Message.Method msg)
               else if Z.eqb (Exchange.extype exchange) EX_TYPE_FANOUT
                    then matchFanout b (Message.Method msg)
                    else matchTopic b (Message.Method msg).
Proof.
  unfold queuesForPublish.
  destruct (Exchange.extype exchange =? EX_TYPE_DIRECT).
  { intros [= <-]. eexists. split; reflexivity. }
  destruct (Exchange.extype exchange =? EX_TYPE_FANOUT).
  { intros [= <-]. eexists. split; reflexivity. }
  destruct (Exchange.extype exchange =? EX_TYPE_TOPIC).
  { intros [= <-]. eexists. split; reflexivity. }
  destruct (Exchange.extype exchange =? EX_TYPE_HEADERS); discriminate.
Qed.

Lemma addBinding_extype (exchange : Exchange) (method : QueueBind.t Table)
    (connId : Z) (fromDisk : bool) :
  Exchange.extype (Outcome.exchange (addBinding exchange method connId fromDisk))
  = Exchange.extype exchange.
Proof.
  unfold addBinding. destruct (existsb _ _); [reflexivity|].
  destruct (Exchange.autodelete exchange); reflexivity.
Qed.

(** X20: binding never takes a route away and gives the new one.  For a
  message that an exchange routes, the exchange after [addBinding] routes
  it to every queue it went to before; the queue of the new binding is
  added when the predicate of the exchange type accepts the new binding for
  the message, and no other queue is added. *)
Theorem addBinding_adds_route (exchange : Exchange) (method : QueueBind.t Table)
    (connId : Z) (fromDisk : bool) (msg : Message.t) (queues queues' : gmap string bool) :
  let binding := NewBinding (QueueBind.Queue method) (QueueBind.Exchange method)
                   (QueueBind.RoutingKey method) (QueueBind.Arguments method) in
  queuesForPublish exchange msg = Ok queues
  → queuesForPublish (Outcome.exchange (addBinding exchange method connId fromDisk)) msg
    = Ok queues'
  → (∀ q, queues !! q = Some true → queues' !! q = Some true)
    ∧ (∀ q, q ≠ QueueBind.Queue method → queues' !! q = queues !! q)
    ∧ ((if Z.eqb (Exchange.extype exchange) EX_TYPE_DIRECT
        then matchDirect binding (Message.Method msg)
        else if Z.eqb (Exchange.extype exchange) EX_TYPE_FANOUT
             then matchFanout binding (Message.Method msg)
             else matchTopic binding (Message.Method msg)) = true
       → queues' !! QueueBind.Queue method = Some true).
Proof.
  simpl. intros Hq Hq'.
  set (binding := NewBinding (QueueBind.Queue method) (QueueBind.Exchange method)
                    (QueueBind.RoutingKey method) (QueueBind.Arguments method)).
  apply queuesForPublish_Ok in Hq as (m1 & -> & Hm1).
  apply queuesForPublish_Ok in Hq' as (m2 & -> & Hm2).
  rewrite addBinding_extype in Hm2.
  assert (∀ b, m2 b = m1 b) as Hsame by (intros b; rewrite Hm1, Hm2; reflexivity).
  assert (∀ l q, existsb (λ b, m2 b && bool_decide (Binding.queueName b = q)) l
                 = existsb (λ b, m1 b && bool_decide (Binding.queueName b = q)) l)
    as Hex.
  { intros l q. induction l as [|b l IH]; [reflexivity|]. simpl.
    rewrite Hsame, IH. reflexivity. }
  rewrite addBinding_bindings. fold binding.
  destruct (existsb (λ b, Equals binding b) (Exchange.bindings exchange)) eqn:Hin.
  - apply existsb_Equals in Hin.
    split; [|split].
    + intros q. rewrite !rangeBindings_lookup, !lookup_empty, Hex. auto.
    + intros q _. rewrite !rangeBindings_lookup, !lookup_empty, Hex. reflexivity.
    + intros Hacc. rewrite <- Hm2 in Hacc.
      apply rangeBindings_empty_lookup. exists binding. auto.
  - split; [|split].
    + intros q. rewrite !rangeBindings_lookup, !lookup_empty, existsb_app, Hex.
      destruct (existsb (λ b, m1 b && bool_decide (Binding.queueName b = q))
                  (Exchange.bindings exchange)); [simpl; auto|intros [=]].
    + intros q Hne. rewrite !rangeBindings_lookup, !lookup_empty, existsb_app, Hex.
      simpl. rewrite (bool_decide_eq_false_2 (QueueBind.Queue method = q))
        by congruence.
      rewrite andb_false_r, !orb_false_r. reflexivity.
    + intros Hacc. rewrite <- Hm2 in Hacc.
      apply rangeBindings_empty_lookup. exists binding.
      split; [apply elem_of_app; right; apply list_elem_of_singleton; reflexivity|].
      auto.
Qed.

Lemma step_declaration (w w' : @World Table) (ev : @Event Table Queue) :
  step w ev = Some w'
  → Exchange.name (w_exchange w') = Exchange.name (w_exchange w)
    ∧ Exchange.extype (w_exchange w') = Exchange.extype (w_exchange w)
    ∧ Exchange.durable (w_exchange w') = Exchange.durable (w_exchange w)
    ∧ Exchange.autodelete (w_exchange w') = Exchange.autodelete (w_exchange w)
    ∧ Exchange.internal (w_exchange w') = Exchange.internal (w_exchange w)
    ∧ Exchange.arguments (w_exchange w') = Exchange.arguments (w_exchange w)
    ∧ Exchange.system (w_exchange w') = Exchange.system (w_exchange w)
    ∧ Exchange.closed (w_exchange w') = Exchange.closed (w_exchange w).
Proof.
  destruct ev as [method connId fromDisk|queue binding|queueName| |now|d]; simpl.
  - intros [= <-]. unfold after, addBinding.
    destruct (existsb _ _); simpl; [auto 10|].
    destruct (Exchange.autodelete (w_exchange w)) eqn:Hauto; simpl; rewrite ?Hauto; auto 10.
  - intros [= <-]. unfold after, removeBinding.
    destruct (firstEqual _ _ _); simpl; [|auto 10].
    destruct (_ && _); simpl; auto 10.
  - intros [= <-]. simpl. auto 10.
  - destruct (w_started w) as [|[] rest]; [discriminate|]. intros [= <-]. simpl. auto 10.
  - destruct (wakeSleeper _ _ _); [|discriminate]. intros [= <-]. simpl. auto 10.
  - destruct (Z.leb 0 d); [|discriminate]. intros [= <-]. simpl. auto 10.
Qed.

(** X21: what an exchange was declared with never changes.  Over any run
  of binding calls and timeout steps the name, type, durable, auto-delete,
  internal and system flags, arguments and closed flag stay as they were, so
  the exchange stays equivalent, in the sense of [equivalentExchanges], to
  what it was at the start. *)
Theorem run_keeps_declaration (evs : list (@Event Table Queue)) (w w' : @World Table) :
  run w evs = Some w'
  → Exchange.name (w_exchange w') = Exchange.name (w_exchange w)
    ∧ Exchange.extype (w_exchange w') = Exchange.extype (w_exchange w)
    ∧ Exchange.durable (w_exchange w') = Exchange.durable (w_exchange w)
    ∧ Exchange.autodelete (w_exchange w') = Exchange.autodelete (w_exchange w)
    ∧ Exchange.internal (w_exchange w') = Exchange.internal (w_exchange w)
    ∧ Exchange.arguments (w_exchange w') = Exchange.arguments (w_exchange w)
    ∧ Exchange.system (w_exchange w') = Exchange.system (w_exchange w)
    ∧ Exchange.closed (w_exchange w') = Exchange.closed (w_exchange w)
    ∧ equivalentExchanges (w_exchange w) (w_exchange w') = true.
Proof.
  revert w. induction evs as [|ev evs IH]; intros w; simpl.
  - intros [= <-]. repeat (split; [reflexivity|]).
    unfold equivalentExchanges, EquivalentTables.
    rewrite String.eqb_refl, Z.eqb_refl, !Bool.eqb_reflx.
    rewrite bool_decide_eq_true_2 by reflexivity. reflexivity.
  - destruct (step w ev) as [w1|] eqn:Hstep; [|discriminate]. intros Hrun.
    destruct (step_declaration w w1 ev Hstep)
      as (Hn & Ht & Hd & Ha & Hi & Hg & Hs & Hc).
    destruct (IH w1 Hrun) as (Hn' & Ht' & Hd' & Ha' & Hi' & Hg' & Hs' & Hc' & _).
    rewrite Hn', Ht', Hd', Ha', Hi', Hg', Hs', Hc', Hn, Ht, Hd, Ha, Hi, Hg, Hs, Hc.
    repeat (split; [reflexivity|]).
    unfold equivalentExchanges, EquivalentTables.
    rewrite Hn', Ht', Hd', Hi', Hg', Hn, Ht, Hd, Hi, Hg.
    rewrite String.eqb_refl, Z.eqb_refl, !Bool.eqb_reflx.
    rewrite bool_decide_eq_true_2 by reflexivity. reflexivity.
Qed.

End ExchangeFurther.

(** * Further properties of the connection *)

(** A frame that is not a heartbeat, on an open connection or on channel
  0, is always passed on: the frame's channel gets the frame at the end of
  its queue, a channel that was not in the table being created and started
  first. *)
Lemma handleFrame_accepted (conn : AMQPConnection.t) (frame : WireFrame.t) (now : Time) :
  WireFrame.FrameType frame ≠ 8
  → ConnectStatus.open (AMQPConnection.connectStatus conn) = true
    ∨ WireFrame.Channel frame = 0
  → handleFrame conn frame now =
      AMQPConnection.set_channels
        (<[WireFrame.Channel frame :=
             match AMQPConnection.channels conn !! WireFrame.Channel frame with
             | Some channel => Channel_send frame channel
             | None => Channel.mk (WireFrame.Channel frame) true [frame]
             end]> (AMQPConnection.channels conn))
        (AMQPConnection.set_ttl
           (time_Add now (AMQPConnection.receiveHeartbeatInterval conn * 2)) conn).
Proof.
  intros Htype Hok. unfold handleFrame, cleanUp.
  apply Z.eqb_neq in Htype. rewrite Htype. simpl.
  assert (negb (ConnectStatus.open (AMQPConnection.connectStatus conn))
          && negb (WireFrame.Channel frame =? 0) = false) as ->.
  { destruct Hok as [-> | ->]; [reflexivity|]. apply andb_false_r. }
  destruct (AMQPConnection.channels conn !! WireFrame.Channel frame); simpl.
  - reflexivity.
  - unfold AMQPConnection.set_channels. simpl. rewrite insert_insert_eq. reflexivity.
Qed.

Lemma handleFrame_connectStatus (conn : AMQPConnection.t) (frame : WireFrame.t)
    (now : Time) :
  AMQPConnection.connectStatus (handleFrame conn frame now)
  = AMQPConnection.connectStatus conn.
Proof.
  unfold handleFrame, cleanUp. simpl.
  destruct (WireFrame.FrameType frame =? 8); [reflexivity|].
  destruct (_ && _); [reflexivity|].
  destruct (AMQPConnection.channels conn !! WireFrame.Channel frame); reflexivity.
Qed.

Lemma handleFrame_refreshes_ttl_aux (conn : AMQPConnection.t) (frame : WireFrame.t)
    (now : Time) :
  AMQPConnection.ttl (handleFrame conn frame now)
  = time_Add now (AMQPConnection.receiveHeartbeatInterval conn * 2).
Proof.
  unfold handleFrame, cleanUp. simpl.
  destruct (WireFrame.FrameType frame =? 8); [reflexivity|].
  destruct (_ && _); [reflexivity|].
  destruct (AMQPConnection.channels conn !! WireFrame.Channel frame); reflexivity.
Qed.

(** X12: every call of [handleFrame] refreshes the TTL to two receive
  intervals after [now], for heartbeats and rejected frames too, and leaves
  the handshake status, the bytes written to the peer, the goroutines, the
  intervals and the limits alone; it never reopens a closed network and
  only adds lines to the output. *)
Theorem handleFrame_refreshes_ttl (conn : AMQPConnection.t) (frame : WireFrame.t)
    (now : Time) :
  let conn' := handleFrame conn frame now in
  AMQPConnection.ttl conn'
    = time_Add now (AMQPConnection.receiveHeartbeatInterval conn * 2)
  ∧ AMQPConnection.connectStatus conn' = AMQPConnection.connectStatus conn
  ∧ AMQPConnection.net_written conn' = AMQPConnection.net_written conn
  ∧ AMQPConnection.goroutines conn' = AMQPConnection.goroutines conn
  ∧ AMQPConnection.receiveHeartbeatInterval conn'
    = AMQPConnection.receiveHeartbeatInterval conn
  ∧ AMQPConnection.sendHeartbeatInterval conn'
    = AMQPConnection.sendHeartbeatInterval conn
  ∧ AMQPConnection.maxChannels conn' = AMQPConnection.maxChannels conn
  ∧ AMQPConnection.maxFrameSize conn' = AMQPConnection.maxFrameSize conn
  ∧ (AMQPConnection.net_closed conn = true → AMQPConnection.net_closed conn' = true)
  ∧ AMQPConnection.stdout conn `prefix_of` AMQPConnection.stdout conn'.
Proof.
  unfold handleFrame, cleanUp. simpl.
  destruct (WireFrame.FrameType frame =? 8); [simpl; repeat split; auto|].
  destruct (_ && _).
  - simpl. repeat split; auto. apply prefix_app_r. reflexivity.
  - destruct (AMQPConnection.channels conn !! WireFrame.Channel frame);
      simpl; repeat split; auto.
Qed.

(** X13: a frame that is not a heartbeat and arrives on an open connection,
  or on channel 0 at any time, is put at the end of the queue of its
  channel; a channel id not in the table gets a new, started channel whose
  queue holds just this frame.  No other channel changes, the network is
  not closed and nothing is printed. *)
Theorem handleFrame_dispatches (conn : AMQPConnection.t) (frame : WireFrame.t)
    (now : Time) :
  WireFrame.FrameType frame ≠ 8
  → ConnectStatus.open (AMQPConnection.connectStatus conn) = true
    ∨ WireFrame.Channel frame = 0
  → let conn' := handleFrame conn frame now in
    AMQPConnection.channels conn' !! WireFrame.Channel frame
      = Some (match AMQPConnection.channels conn !! WireFrame.Channel frame with
              | Some channel =>
                  Channel.mk (Channel.id channel) (Channel.started channel)
                    (Channel.incoming channel ++ [frame])
              | None => Channel.mk (WireFrame.Channel frame) true [frame]
              end)
    ∧ (∀ id, id ≠ WireFrame.Channel frame
             → AMQPConnection.channels conn' !! id = AMQPConnection.channels conn !! id)
    ∧ AMQPConnection.net_closed conn' = AMQPConnection.net_closed conn
    ∧ AMQPConnection.stdout conn' = AMQPConnection.stdout conn.
Proof.
  intros Htype Hok. simpl. rewrite (handleFrame_accepted conn frame now Htype Hok).
  simpl. split; [|split; [|split; reflexivity]].
  - rewrite lookup_insert_eq.
    destruct (AMQPConnection.channels conn !! WireFrame.Channel frame); reflexivity.
  - intros id Hid. apply lookup_insert_ne. congruence.
Qed.

Lemma framesFor_cons (id : Z) (frame : WireFrame.t) (t : Time)
    (frames : list (WireFrame.t * Time)) :
  framesFor id ((frame, t) :: frames) =
    if Z.eqb (WireFrame.Channel frame) id && negb (Z.eqb (WireFrame.FrameType frame) 8)
    then frame :: framesFor id frames
    else framesFor id frames.
Proof. reflexivity. Qed.

(** X14: the read loop keeps the arrival order per channel.  On a
  connection whose network is open, when every read gives a frame and the
  connection is open or all the frames are for channel 0 (the handshake),
  the queue of each channel afterwards is its old queue followed by the
  non-heartbeat frames for that channel in the order they arrived; an id
  that was not in the table and got no frame is still not in the table. *)
Theorem handleIncoming_keeps_arrival_order (frames : list (WireFrame.t * Time))
    (conn : AMQPConnection.t) (id : Z) :
  ConnectStatus.open (AMQPConnection.connectStatus conn) = true
  ∨ Forall (λ ft, WireFrame.Channel (fst ft) = 0) frames
  → ConnectStatus.closed (AMQPConnection.connectStatus conn) = false
  → AMQPConnection.net_closed conn = false
  → Channel.incoming
      <$> (AMQPConnection.channels (handleIncoming conn (delivered frames)) !! id)
    = match AMQPConnection.channels conn !! id with
      | Some channel => Some (Channel.incoming channel ++ framesFor id frames)%list
      | None =>
          match framesFor id frames with
          | [] => None
          | _ :: _ => Some (framesFor id frames)
          end
      end.
Proof.
  revert conn. induction frames as [|[frame t] frames IH];
    intros conn Hok Hclosed Hnet.
  - simpl. destruct (AMQPConnection.channels conn !! id); simpl;
      [rewrite app_nil_r|]; reflexivity.
  - assert (ConnectStatus.open (AMQPConnection.connectStatus conn) = true
            ∨ WireFrame.Channel frame = 0) as Hhead.
    { destruct Hok as [Hopen|Hall]; [left; exact Hopen|].
      right. inversion Hall; subst. assumption. }
    assert (ConnectStatus.open
              (AMQPConnection.connectStatus (handleFrame conn frame t)) = true
            ∨ Forall (λ ft, WireFrame.Channel (fst ft) = 0) frames) as Htail.
    { rewrite handleFrame_connectStatus.
      destruct Hok as [Hopen|Hall]; [left; exact Hopen|].
      right. inversion Hall; subst. assumption. }
    simpl. rewrite Hclosed. unfold ReadFrame. rewrite Hnet.
    rewrite (IH _ Htail); cycle 1.
    { rewrite handleFrame_connectStatus. exact Hclosed. }
    { destruct (Z.eqb_spec (WireFrame.FrameType frame) 8) as [H8|H8].
      - rewrite (handleFrame_heartbeat _ _ _ H8). exact Hnet.
      - rewrite (handleFrame_accepted _ _ _ H8 Hhead). exact Hnet. }
    rewrite framesFor_cons.
    destruct (Z.eqb_spec (WireFrame.FrameType frame) 8) as [H8|H8].
    { rewrite (handleFrame_heartbeat _ _ _ H8), andb_false_r. reflexivity. }
    rewrite (handleFrame_accepted _ _ _ H8 Hhead), andb_true_r. simpl.
    destruct (Z.eqb_spec (WireFrame.Channel frame) id) as [->|Hid].
    + rewrite lookup_insert_eq.
      destruct (AMQPConnection.channels conn !! id); simpl;
        [rewrite <- app_assoc|]; reflexivity.
    + rewrite lookup_insert_ne by assumption. reflexivity.
Qed.

(** X15: the read loop ends at the first failed read: it prints the error
  and closes the network, and whatever the network delivers after the
  failure is never handled. *)
Theorem handleIncoming_stops_at_read_error (frames : list (WireFrame.t * Time))
    (conn : AMQPConnection.t) (msg : string) (now : Time)
    (rest : list (ReadFrameResult * Time)) :
  handleIncoming conn (delivered frames ++ (ReadFrameErr msg, now) :: rest)
  = handleIncoming conn (delivered frames ++ [(ReadFrameErr msg, now)])
  ∧ (ConnectStatus.closed (AMQPConnection.connectStatus conn) = false
     → AMQPConnection.net_closed
         (handleIncoming conn (delivered frames ++ (ReadFrameErr msg, now) :: rest))
       = true).
Proof.
  revert conn. induction frames as [|[frame t] frames IH]; intros conn; simpl.
  - destruct (ConnectStatus.closed _); [split; [reflexivity|discriminate]|].
    unfold ReadFrame. destruct (AMQPConnection.net_closed conn); split; reflexivity.
  - destruct (ConnectStatus.closed (AMQPConnection.connectStatus conn)) eqn:Hclosed;
      [split; [reflexivity|discriminate]|].
    unfold ReadFrame. destruct (AMQPConnection.net_closed conn);
      [split; reflexivity|].
    destruct (IH (handleFrame conn frame t)) as [Heq Hnet].
    split; [exact Heq|]. intros _. apply Hnet.
    rewrite handleFrame_connectStatus. exact Hclosed.
Qed.

(** X16: [openConnection] goes on to the handshake only when the read
  returned no error and left the signature in the buffer.  In every other
  case the channel table is untouched, no goroutine is started, the network
  is closed, and the supported signature is written to the peer exactly when
  the read itself did not fail. *)
Theorem openConnection_rejects (conn : AMQPConnection.t) (r : ReadResult)
    (arrives : list (ReadFrameResult * Time)) :
  read_err r ≠ None ∨ network_Read (replicate 8 x00) r ≠ supported
  → AMQPConnection.channels (openConnection conn r arrives) = AMQPConnection.channels conn
    ∧ AMQPConnection.goroutines (openConnection conn r arrives)
      = AMQPConnection.goroutines conn
    ∧ AMQPConnection.net_closed (openConnection conn r arrives) = true
    ∧ AMQPConnection.stdout (openConnection conn r arrives) = AMQPConnection.stdout conn
    ∧ AMQPConnection.net_written (openConnection conn r arrives)
      = match read_err r with
        | Some _ => AMQPConnection.net_written conn
        | None => (AMQPConnection.net_written conn ++ [supported])%list
        end.
Proof.
  intros Hbad. unfold openConnection.
  destruct (read_err r) as [e|] eqn:Herr; [simpl; auto|].
  destruct Hbad as [Hbad|Hbad]; [congruence|].
  assert ((bytes_Compare (network_Read (replicate 8 x00) r) supported =? 0) = false) as ->.
  { apply Z.eqb_neq. rewrite bytes_Compare_eq. exact Hbad. }
  simpl. auto.
Qed.

(** X17: a short first read is a mismatch.  When the read returns fewer
  than 8 bytes (and no error), the rest of the buffer is still zero, the
  buffer cannot equal the signature (whose last byte is 1), and the
  connection is answered with the signature and closed, even when the bytes
  read are the beginning of the signature. *)
Theorem openConnection_short_read (conn : AMQPConnection.t) (data : list byte)
    (arrives : list (ReadFrameResult * Time)) :
  (length data < 8)%nat
  → network_Read (replicate 8 x00) (mkRead data None) ≠ supported
    ∧ openConnection conn (mkRead data None) arrives
      = hardClose (network_Write supported conn).
Proof.
  intros Hlen.
  assert (network_Read (replicate 8 x00) (mkRead data None) ≠ supported) as Hne.
  { unfold network_Read, supported. simpl.
    do 8 (destruct data as [|? data]; [simpl; discriminate|]).
    simpl in Hlen. lia. }
  split; [exact Hne|]. unfold openConnection. simpl read_err. cbv iota.
  assert ((bytes_Compare (network_Read (replicate 8 x00) (mkRead data None)) supported
           =? 0) = false) as ->.
  { apply Z.eqb_neq. rewrite bytes_Compare_eq. exact Hne. }
  reflexivity.
Qed.

(** X18: [deregisterChannel] removes the one channel and no other; the
  next accepted frame for that id creates the channel anew, started, with a
  queue that holds only this frame: the frames queued before are gone. *)
Theorem deregisterChannel_then_frame (conn : AMQPConnection.t) (id : Z)
    (frame : WireFrame.t) (now : Time) :
  WireFrame.Channel frame = id
  → WireFrame.FrameType frame ≠ 8
  → ConnectStatus.open (AMQPConnection.connectStatus conn) = true ∨ id = 0
  → AMQPConnection.channels (deregisterChannel conn id) !! id = None
    ∧ (∀ other, other ≠ id
                → AMQPConnection.channels (deregisterChannel conn id) !! other
                  = AMQPConnection.channels conn !! other)
    ∧ AMQPConnection.channels (handleFrame (deregisterChannel conn id) frame now) !! id
      = Some (Channel.mk id true [frame]).
Proof.
  intros Hid Htype Hok. split; [apply lookup_delete_eq|].
  split; [intros other Hother; apply lookup_delete_ne; congruence|].
  rewrite handleFrame_accepted; [|exact Htype|rewrite Hid; exact Hok].
  simpl. rewrite Hid, lookup_insert_eq, lookup_delete_eq. reflexivity.
Qed.

Lemma handleClientHeartbeatTimeout_loop_idle (evs : list TimerEvent)
    (conn : AMQPConnection.t) :
  Forall (λ ev, match ev with
                | CtxDone => True
                | TimerFired now => now ≤ AMQPConnection.ttl conn
                end) evs
  → handleClientHeartbeatTimeout_loop conn evs = conn.
Proof.
  induction 1 as [|ev evs Hev _ IH]; [reflexivity|]. simpl.
  unfold handleClientHeartbeatTimeout_turn.
  destruct (ConnectStatus.closed _); [reflexivity|].
  destruct ev as [|now]; [reflexivity|].
  apply Z.ltb_ge in Hev. rewrite Hev. exact IH.
Qed.

(** X19: the receive timeout and the TTL refresh fit together.  After a
  frame handled at time [t], a timer that fires no later than two receive
  intervals after [t] leaves the connection as it is, and so does any run of
  such timers; a timer that fires later than that hard-closes the
  connection, and the loop goes on. *)
Theorem receive_timeout_after_frame (conn : AMQPConnection.t) (frame : WireFrame.t)
    (t now : Time) (evs : list TimerEvent) :
  ConnectStatus.closed (AMQPConnection.connectStatus conn) = false
  → (now ≤ time_Add t (AMQPConnection.receiveHeartbeatInterval conn * 2)
     → handleClientHeartbeatTimeout_turn (handleFrame conn frame t) (TimerFired now)
       = LoopAgain (handleFrame conn frame t))
    ∧ (time_Add t (AMQPConnection.receiveHeartbeatInterval conn * 2) < now
       → handleClientHeartbeatTimeout_turn (handleFrame conn frame t) (TimerFired now)
         = LoopAgain (hardClose (handleFrame conn frame t)))
    ∧ (Forall (λ ev, match ev with
                     | CtxDone => True
                     | TimerFired now' =>
                         now' ≤ time_Add t (AMQPConnection.receiveHeartbeatInterval conn * 2)
                     end) evs
       → handleClientHeartbeatTimeout_loop (handleFrame conn frame t) evs
         = handleFrame conn frame t).
Proof.
  intros Hclosed.
  pose proof (handleFrame_refreshes_ttl_aux conn frame t) as Httl.
  unfold handleClientHeartbeatTimeout_turn.
  rewrite handleFrame_connectStatus, Hclosed, Httl.
  split; [|split].
  - intros Hle. apply Z.ltb_ge in Hle. rewrite Hle. reflexivity.
  - intros Hlt. apply Z.ltb_lt in Hlt. rewrite Hlt. reflexivity.
  - intros Hall. apply handleClientHeartbeatTimeout_loop_idle.
    rewrite Httl. exact Hall.
Qed.

(** * The further theorems at sample values *)

Lemma queuesForPublish_fanout_topic_witness :
  (Exchange.extype
     (sampleExchange EX_TYPE_FANOUT false
        [sampleBinding "q-1" "x.y" []; sampleBinding "q-2" "" [];
         sampleBinding "q-1" "z" []]) = EX_TYPE_FANOUT
   ∨ Exchange.extype
       (sampleExchange EX_TYPE_FANOUT false
          [sampleBinding "q-1" "x.y" []; sampleBinding "q-2" "" [];
           sampleBinding "q-1" "z" []]) = EX_TYPE_TOPIC)
  ∧ ∃ queues : gmap string bool,
      queuesForPublish
        (sampleExchange EX_TYPE_FANOUT false
           [sampleBinding "q-1" "x.y" []; sampleBinding "q-2" "" [];
            sampleBinding "q-1" "z" []])
        (samplePublish "any.key") = Ok queues
      ∧ (size queues ≤ 3)%nat.
Proof.
  split; [left; reflexivity|].
  destruct (queuesForPublish_fanout_topic
              (sampleExchange EX_TYPE_FANOUT false
                 [sampleBinding "q-1" "x.y" []; sampleBinding "q-2" "" [];
                  sampleBinding "q-1" "z" []])
              (samplePublish "any.key") (or_introl eq_refl))
    as (queues & Hq & _ & _ & Hsize).
  exists queues. split; [exact Hq|exact Hsize].
Defined.

Lemma queuesForPublish_same_members_witness :
  (Exchange.extype (sampleExchange EX_TYPE_TOPIC false
                      [sampleBinding "q-1" "a.*" []; sampleBinding "q-2" "#" []])
   = Exchange.extype (sampleExchange EX_TYPE_TOPIC true
                        [sampleBinding "q-2" "#" []; sampleBinding "q-1" "a.*" [];
                         sampleBinding "q-2" "#" []])
   ∧ ∀ b, b ∈ [sampleBinding "q-1" "a.*" []; sampleBinding "q-2" "#" []]
          ↔ b ∈ [sampleBinding "q-2" "#" []; sampleBinding "q-1" "a.*" [];
                 sampleBinding "q-2" "#" []])
  ∧ queuesForPublish
      (sampleExchange EX_TYPE_TOPIC false
         [sampleBinding "q-1" "a.*" []; sampleBinding "q-2" "#" []])
      (samplePublish "a.b")
    = queuesForPublish
        (sampleExchange EX_TYPE_TOPIC true
           [sampleBinding "q-2" "#" []; sampleBinding "q-1" "a.*" [];
            sampleBinding "q-2" "#" []])
        (samplePublish "a.b").
Proof.
  assert (∀ b, b ∈ [sampleBinding "q-1" "a.*" []; sampleBinding "q-2" "#" []]
               ↔ b ∈ [sampleBinding "q-2" "#" []; sampleBinding "q-1" "a.*" [];
                      sampleBinding "q-2" "#" []]) as Hsame.
  { intros b. rewrite !elem_of_cons, !elem_of_nil. tauto. }
  split; [split; [reflexivity|exact Hsame]|].
  apply (queuesForPublish_same_members
           (sampleExchange EX_TYPE_TOPIC false
              [sampleBinding "q-1" "a.*" []; sampleBinding "q-2" "#" []])
           (sampleExchange EX_TYPE_TOPIC true
              [sampleBinding "q-2" "#" []; sampleBinding "q-1" "a.*" [];
               sampleBinding "q-2" "#" []])
           (samplePublish "a.b") eq_refl Hsame).
Defined.

Lemma removeBindingsForQueue_unroutes_witness :
  queuesForPublish
    (Outcome.exchange
       (removeBindingsForQueue
          (sampleExchange EX_TYPE_FANOUT false
             [sampleBinding "q-1" "x" []; sampleBinding "q-2" "y" []]) "q-1"))
    (samplePublish "x") = Ok {["q-2" := true]}
  ∧ ({["q-2" := true]} : gmap string bool) !! "q-1" = None.
Proof.
  split; [reflexivity|].
  apply (removeBindingsForQueue_unroutes
           (sampleExchange EX_TYPE_FANOUT false
              [sampleBinding "q-1" "x" []; sampleBinding "q-2" "y" []])
           "q-1" (samplePublish "x") {["q-2" := true]}).
  reflexivity.
Defined.

Lemma removeBinding_undoes_addBinding_witness :
  (∀ b, b ∈ Exchange.bindings (sampleExchange EX_TYPE_DIRECT true [])
        → Equals (sampleBinding "q-1" "x.y" []) b = false)
  ∧ Exchange.bindings
      (Outcome.exchange
         (removeBinding
            (Outcome.exchange
               (addBinding (sampleExchange EX_TYPE_DIRECT true [])
                  (sampleBind "q-1" "x.y") 1 false))
            "q-1" (sampleBinding "q-1" "x.y" []))) = []
  ∧ Outcome.started
      (removeBinding
         (Outcome.exchange
            (addBinding (sampleExchange EX_TYPE_DIRECT true [])
               (sampleBind "q-1" "x.y") 1 false))
         "q-1" (sampleBinding "q-1" "x.y" [])) = [GoAutodeleteTimeout].
Proof.
  assert (∀ b, b ∈ Exchange.bindings (sampleExchange EX_TYPE_DIRECT true [])
               → Equals (sampleBinding "q-1" "x.y" []) b = false) as Hnone.
  { intros b Hb. simpl in Hb. apply elem_of_nil in Hb. destruct Hb. }
  split; [exact Hnone|].
  apply (removeBinding_undoes_addBinding (sampleExchange EX_TYPE_DIRECT true [])
           (sampleBind "q-1" "x.y") 1 false "q-1" Hnone).
Defined.

Lemma autodelete_fires_after_quiet_window_witness :
  (Exchange.autodelete (sampleExchange EX_TYPE_DIRECT true [sampleBinding "q-1" "x.y" []]) = true
   ∧ Exchange.bindings (sampleExchange EX_TYPE_DIRECT true [sampleBinding "q-1" "x.y" []])
     = [sampleBinding "q-1" "x.y" []]
   ∧ Equals (sampleBinding "q-1" "x.y" []) (sampleBinding "q-1" "x.y" []) = true
   ∧ 0 ≤ 0
   ∧ forallb isQuiet sampleQuiet = true
   ∧ autodeleteWindow ≤ elapsed sampleQuiet)
  ∧ ∃ w' : @World (list (string * string)),
      run (sampleWorld (sampleExchange EX_TYPE_DIRECT true [sampleBinding "q-1" "x.y" []]))
        ([EvRemoveBinding "q-1" (sampleBinding "q-1" "x.y" []); EvTick 0; EvTimeoutBegin]
         ++ sampleQuiet ++ [EvTimeoutWake (time_Add sampleClock 0)]) = Some w'
      ∧ w_deleteChan w' =
          [Exchange.set_deleteActive (time_Add sampleClock 0)
             (sampleExchange EX_TYPE_DIRECT true [])].
Proof.
  split; [repeat split; vm_compute; congruence|].
  destruct (autodelete_fires_after_quiet_window
              (sampleWorld (sampleExchange EX_TYPE_DIRECT true [sampleBinding "q-1" "x.y" []]))
              "q-1" (sampleBinding "q-1" "x.y" []) (sampleBinding "q-1" "x.y" []) 0
              sampleQuiet)
    as (w' & Hrun & Hchan & _); try reflexivity; try (vm_compute; congruence).
  exists w'. split; [exact Hrun|exact Hchan].
Defined.

Lemma autodelete_fires_despite_early_addBinding_witness :
  (Exchange.autodelete (sampleExchange EX_TYPE_DIRECT true [sampleBinding "q-1" "x.y" []]) = true
   ∧ Exchange.bindings (sampleExchange EX_TYPE_DIRECT true [sampleBinding "q-1" "x.y" []])
     = [sampleBinding "q-1" "x.y" []]
   ∧ Equals (sampleBinding "q-1" "x.y" []) (sampleBinding "q-1" "x.y" []) = true
   ∧ 0 ≤ 1000
   ∧ autodeleteWindow ≤ 5 * time_Second)
  ∧ ∃ w' : @World (list (string * string)),
      run (sampleWorld (sampleExchange EX_TYPE_DIRECT true [sampleBinding "q-1" "x.y" []]))
        [EvRemoveBinding "q-1" (sampleBinding "q-1" "x.y" []);
         EvAddBinding (sampleBind "q-1" "x.y") 1 false;
         EvTick 1000; EvTimeoutBegin; EvTick (5 * time_Second);
         EvTimeoutWake (time_Add sampleClock 1000)] = Some w'
      ∧ w_deleteChan w' = [w_exchange w']
      ∧ Exchange.bindings (w_exchange w') = [sampleBinding "q-1" "x.y" []].
Proof.
  split; [repeat split; vm_compute; congruence|].
  destruct (autodelete_fires_despite_early_addBinding
              (sampleWorld (sampleExchange EX_TYPE_DIRECT true [sampleBinding "q-1" "x.y" []]))
              "q-1" (sampleBinding "q-1" "x.y" []) (sampleBinding "q-1" "x.y" [])
              (sampleBind "q-1" "x.y") 1 false 1000 (5 * time_Second))
    as (w' & Hrun & Hchan & Hb & _); try reflexivity; try (vm_compute; congruence).
  exists w'. split; [exact Hrun|]. split; [exact Hchan|exact Hb].
Defined.

Lemma not_autodelete_never_signals_witness :
  (Exchange.autodelete
     (w_exchange (sampleWorld (sampleExchange EX_TYPE_DIRECT false
                                 [sampleBinding "q-1" "x.y" []]))) = false
   ∧ w_started (sampleWorld (sampleExchange EX_TYPE_DIRECT false
                               [sampleBinding "q-1" "x.y" []])) = []
   ∧ w_sleeping (sampleWorld (sampleExchange EX_TYPE_DIRECT false
                                [sampleBinding "q-1" "x.y" []])) = [])
  ∧ ∃ w' : @World (list (string * string)),
      run (sampleWorld (sampleExchange EX_TYPE_DIRECT false [sampleBinding "q-1" "x.y" []]))
        [EvRemoveBinding "q-1" (sampleBinding "q-1" "x.y" []);
         EvTick (10 * time_Second);
         EvAddBinding (sampleBind "q-2" "k") 1 false] = Some w'
      ∧ w_deleteChan w' = []
      ∧ w_started w' = [].
Proof.
  split; [repeat split|].
  eexists. split; [reflexivity|].
  destruct (not_autodelete_never_signals
              [EvRemoveBinding "q-1" (sampleBinding "q-1" "x.y" []);
               EvTick (10 * time_Second);
               EvAddBinding (sampleBind "q-2" "k") 1 false]
              (sampleWorld (sampleExchange EX_TYPE_DIRECT false
                              [sampleBinding "q-1" "x.y" []]))
              _ eq_refl eq_refl eq_refl eq_refl) as (Hchan & Hst & _).
  split; [exact Hchan|exact Hst].
Defined.

Lemma addBinding_adds_route_witness :
  (queuesForPublish (sampleExchange EX_TYPE_DIRECT false [sampleBinding "q-1" "x.y" []])
     (samplePublish "x.y") = Ok {["q-1" := true]}
   ∧ queuesForPublish
       (Outcome.exchange
          (addBinding (sampleExchange EX_TYPE_DIRECT false [sampleBinding "q-1" "x.y" []])
             (sampleBind "q-2" "x.y") 1 false))
       (samplePublish "x.y") = Ok {["q-1" := true; "q-2" := true]})
  ∧ (∀ q, ({["q-1" := true]} : gmap string bool) !! q = Some true
          → ({["q-1" := true; "q-2" := true]} : gmap string bool) !! q = Some true).
Proof.
  split; [split; reflexivity|].
  apply (addBinding_adds_route
           (sampleExchange EX_TYPE_DIRECT false [sampleBinding "q-1" "x.y" []])
           (sampleBind "q-2" "x.y") 1 false (samplePublish "x.y")
           {["q-1" := true]} {["q-1" := true; "q-2" := true]}); reflexivity.
Defined.

Lemma run_keeps_declaration_witness :
  ∃ w' : @World (list (string * string)),
    run (sampleWorld (sampleExchange EX_TYPE_TOPIC true [sampleBinding "q-1" "x.y" []]))
      [EvRemoveBinding "q-1" (sampleBinding "q-1" "x.y" []); EvTimeoutBegin;
       EvAddBinding (sampleBind "q-2" "k") 1 false] = Some w'
    ∧ equivalentExchanges
        (sampleExchange EX_TYPE_TOPIC true [sampleBinding "q-1" "x.y" []])
        (w_exchange w') = true.
Proof.
  eexists. split; [reflexivity|].
  edestruct (run_keeps_declaration
               [EvRemoveBinding "q-1" (sampleBinding "q-1" "x.y" []); EvTimeoutBegin;
                EvAddBinding (sampleBind "q-2" "k") 1 false]
               (sampleWorld (sampleExchange EX_TYPE_TOPIC true
                               [sampleBinding "q-1" "x.y" []])))
    as (_ & _ & _ & _ & _ & _ & _ & _ & Heq); [reflexivity|exact Heq].
Defined.

(** The first method frame on channel 0 of a new connection. *)
Lemma handleFrame_dispatches_witness :
  (WireFrame.FrameType (WireFrame.mk 1 0 [x0a]) ≠ 8
   ∧ (ConnectStatus.open (AMQPConnection.connectStatus (NewAMQPConnection 1)) = true
      ∨ WireFrame.Channel (WireFrame.mk 1 0 [x0a]) = 0))
  ∧ AMQPConnection.channels
      (handleFrame (NewAMQPConnection 1) (WireFrame.mk 1 0 [x0a]) sampleClock) !! 0
    = Some (Channel.mk 0 true [WireFrame.mk 1 0 [x0a]]).
Proof.
  split; [split; [discriminate|right; reflexivity]|].
  apply (handleFrame_dispatches (NewAMQPConnection 1) (WireFrame.mk 1 0 [x0a])
           sampleClock); [discriminate|right; reflexivity].
Defined.

(** The handshake: a method frame, a heartbeat and another method frame,
  all on channel 0 of a connection that is not open yet. *)
Lemma handleIncoming_keeps_arrival_order_witness :
  ((ConnectStatus.open
      (AMQPConnection.connectStatus (handshakeStarted (NewAMQPConnection 1))) = true
    ∨ Forall (λ ft, WireFrame.Channel (fst ft) = 0)
        [(WireFrame.mk 1 0 [x0a], sampleClock); (WireFrame.mk 8 0 [], sampleClock);
         (WireFrame.mk 1 0 [x0b], sampleClock)])
   ∧ ConnectStatus.closed
       (AMQPConnection.connectStatus (handshakeStarted (NewAMQPConnection 1))) = false
   ∧ AMQPConnection.net_closed (handshakeStarted (NewAMQPConnection 1)) = false)
  ∧ Channel.incoming
      <$> (AMQPConnection.channels
             (handleIncoming (handshakeStarted (NewAMQPConnection 1))
                (delivered
                   [(WireFrame.mk 1 0 [x0a], sampleClock);
                    (WireFrame.mk 8 0 [], sampleClock);
                    (WireFrame.mk 1 0 [x0b], sampleClock)])) !! 0)
    = Some [WireFrame.mk 1 0 [x0a]; WireFrame.mk 1 0 [x0b]].
Proof.
  assert (Forall (λ ft : WireFrame.t * Time, WireFrame.Channel (fst ft) = 0)
            [(WireFrame.mk 1 0 [x0a], sampleClock); (WireFrame.mk 8 0 [], sampleClock);
             (WireFrame.mk 1 0 [x0b], sampleClock)]) as Hall.
  { repeat constructor. }
  split; [split; [right; exact Hall|split; reflexivity]|].
  apply (handleIncoming_keeps_arrival_order
           [(WireFrame.mk 1 0 [x0a], sampleClock); (WireFrame.mk 8 0 [], sampleClock);
            (WireFrame.mk 1 0 [x0b], sampleClock)]
           (handshakeStarted (NewAMQPConnection 1)) 0 (or_intror Hall) eq_refl eq_refl).
Defined.

(** A read that fails after four bytes. *)
Lemma openConnection_rejects_witness :
  (read_err (mkRead [x41; x4d; x51; x50] (Some "EOF")) ≠ None
   ∨ network_Read (replicate 8 x00) (mkRead [x41; x4d; x51; x50] (Some "EOF")) ≠ supported)
  ∧ AMQPConnection.net_closed
      (openConnection (NewAMQPConnection 1) (mkRead [x41; x4d; x51; x50] (Some "EOF")) [])
    = true
  ∧ AMQPConnection.net_written
      (openConnection (NewAMQPConnection 1) (mkRead [x41; x4d; x51; x50] (Some "EOF")) [])
    = [].
Proof.
  assert (read_err (mkRead [x41; x4d; x51; x50] (Some "EOF")) ≠ None) as Herr.
  { simpl. discriminate. }
  split; [left; exact Herr|].
  destruct (openConnection_rejects (NewAMQPConnection 1)
              (mkRead [x41; x4d; x51; x50] (Some "EOF")) [] (or_introl Herr))
    as (_ & _ & Hclosed & _ & Hwritten).
  split; [exact Hclosed|exact Hwritten].
Defined.

(** The first seven bytes of the signature, delivered alone. *)
Lemma openConnection_short_read_witness :
  (length [x41; x4d; x51; x50; x00; x00; x09] < 8)%nat
  ∧ openConnection (NewAMQPConnection 1)
      (mkRead [x41; x4d; x51; x50; x00; x00; x09] None)
      [(GotFrame (WireFrame.mk 1 0 []), sampleClock)]
    = hardClose (network_Write supported (NewAMQPConnection 1)).
Proof.
  split; [simpl; lia|].
  apply (openConnection_short_read (NewAMQPConnection 1)
           [x41; x4d; x51; x50; x00; x00; x09]
           [(GotFrame (WireFrame.mk 1 0 []), sampleClock)]).
  simpl. lia.
Defined.

Lemma deregisterChannel_then_frame_witness :
  (WireFrame.Channel (WireFrame.mk 1 0 [x0b]) = 0
   ∧ WireFrame.FrameType (WireFrame.mk 1 0 [x0b]) ≠ 8
   ∧ (ConnectStatus.open
        (AMQPConnection.connectStatus
           (handleFrame (NewAMQPConnection 1) (WireFrame.mk 1 0 [x0a]) sampleClock)) = true
      ∨ 0 = 0))
  ∧ AMQPConnection.channels
      (handleFrame
         (deregisterChannel
            (handleFrame (NewAMQPConnection 1) (WireFrame.mk 1 0 [x0a]) sampleClock) 0)
         (WireFrame.mk 1 0 [x0b]) sampleClock) !! 0
    = Some (Channel.mk 0 true [WireFrame.mk 1 0 [x0b]]).
Proof.
  split; [split; [reflexivity|split; [discriminate|right; reflexivity]]|].
  apply (deregisterChannel_then_frame
           (handleFrame (NewAMQPConnection 1) (WireFrame.mk 1 0 [x0a]) sampleClock) 0
           (WireFrame.mk 1 0 [x0b]) sampleClock);
    [reflexivity|discriminate|right; reflexivity].
Defined.

(** A frame at [sampleClock], a timer 25 seconds later: with the receive
  interval of 10 seconds the deadline was 20 seconds after the frame. *)
Lemma receive_timeout_after_frame_witness :
  ConnectStatus.closed (AMQPConnection.connectStatus (NewAMQPConnection 1)) = false
  ∧ (time_Add sampleClock
       (AMQPConnection.receiveHeartbeatInterval (NewAMQPConnection 1) * 2)
     < time_Add sampleClock (25 * time_Second)
     → handleClientHeartbeatTimeout_turn
         (handleFrame (NewAMQPConnection 1) (WireFrame.mk 1 0 []) sampleClock)
         (TimerFired (time_Add sampleClock (25 * time_Second)))
       = LoopAgain
           (hardClose (handleFrame (NewAMQPConnection 1) (WireFrame.mk 1 0 []) sampleClock))).
Proof.
  split; [reflexivity|].
  apply (receive_timeout_after_frame (NewAMQPConnection 1) (WireFrame.mk 1 0 [])
           sampleClock (time_Add sampleClock (25 * time_Second)) []).
  reflexivity.
Defined.
